(** * YouTube Workout Plan Extractor ([demo.py]): model and verified properties

    The program is sequential glue between a URL parser (pytube), a
    transcript provider (youtube_transcript_api), a hosted completion
    endpoint (openai client pointed at Perplexity), the [json] module,
    pandas and the Streamlit UI.  The model below follows [demo.py] line by
    line; every collaborator is either modelled as the function the program
    calls (json, csv writer, the pytube regular expression) or recorded as
    an observable call answered by a [World], which also holds the limits
    of the interpreter that [json.loads] can meet. *)

From Stdlib Require Import List ZArith NArith String Ascii Bool Lia.
From Stdlib Require Import DecimalString.
Import ListNotations.

Set Implicit Arguments.
Set Warnings "-register-all".

(** ** Python strings

    A Python [str] is a sequence of Unicode code points. *)

Definition char := N.
Definition pystr := list char.

Definition ch (a : ascii) : char := N_of_ascii a.

Definition hexval (c : char) : option N :=
  if (48 <=? c)%N && (c <=? 57)%N then Some (c - 48)%N
  else if (97 <=? c)%N && (c <=? 102)%N then Some (c - 87)%N
  else if (65 <=? c)%N && (c <=? 70)%N then Some (c - 55)%N
  else None.

(** Source literals are transcribed with [lit], which reads the escapes of
    Python string literals: [\n], [\t], [\r], [\\] and [\xHH] (so [\x22]
    is the double quote). *)
Fixpoint lit (s : string) : pystr :=
  match s with
  | EmptyString => []
  | String c r =>
    if Ascii.eqb c "\"%char then
      match r with
      | String e r1 =>
        if Ascii.eqb e "n"%char then 10%N :: lit r1
        else if Ascii.eqb e "t"%char then 9%N :: lit r1
        else if Ascii.eqb e "r"%char then 13%N :: lit r1
        else if Ascii.eqb e "\"%char then 92%N :: lit r1
        else if Ascii.eqb e "x"%char then
          match r1 with
          | String h (String l r2) =>
            match hexval (ch h), hexval (ch l) with
            | Some a, Some b => (16 * a + b)%N :: lit r2
            | _, _ => ch c :: ch e :: lit r1
            end
          | _ => ch c :: ch e :: lit r1
          end
        else ch c :: ch e :: lit r1
      | EmptyString => [ch c]
      end
    else ch c :: lit r
  end.

Fixpoint str_eqb (a b : pystr) : bool :=
  match a, b with
  | [], [] => true
  | x :: a', y :: b' => N.eqb x y && str_eqb a' b'
  | _, _ => false
  end.

(** [sep.join(items)] *)
Fixpoint str_join (sep : pystr) (items : list pystr) : pystr :=
  match items with
  | [] => []
  | [x] => x
  | x :: rest => x ++ sep ++ str_join sep rest
  end.

(** [str(n)] for a Python [int]. *)
Definition str_of_int (z : Z) : pystr :=
  map ch (list_ascii_of_string (NilZero.string_of_int (Z.to_int z))).

(** [bool(s)] for a [str]: the empty string is falsy. *)
Definition str_truthy (s : pystr) : bool :=
  match s with [] => false | _ => true end.

(** ** Python dicts

    A [dict] keeps its keys in insertion order; assigning to a key that is
    present replaces the value in place. *)

Definition dict (V : Type) := list (pystr * V).

Fixpoint dict_get {V} (k : pystr) (d : dict V) : option V :=
  match d with
  | [] => None
  | (k', v) :: d' => if str_eqb k k' then Some v else dict_get k d'
  end.

Fixpoint dict_set {V} (k : pystr) (v : V) (d : dict V) : dict V :=
  match d with
  | [] => [(k, v)]
  | (k', v') :: d' =>
    if str_eqb k k' then (k', v) :: d' else (k', v') :: dict_set k v d'
  end.

(** [k in d] *)
Definition dict_contains {V} (k : pystr) (d : dict V) : bool :=
  match dict_get k d with Some _ => true | None => false end.

Definition dict_keys {V} (d : dict V) : list pystr := map fst d.

(** ** Exceptions

    [exn] stands for an instance of a subclass of [Exception]: its class
    name and its [str(e)].  A call returns a value or raises. *)

Record exn := mkExn { exn_class : string; exn_str : pystr }.

Inductive reply (A : Type) :=
| Ok (a : A)
| Raised (e : exn).
Arguments Raised {A}.

(** ** JSON values, as Python objects

    [json.loads] yields [None], [bool], [int], [float], [str], [list] and
    [dict].  A [float] is carried as the numeral that denotes it: the
    program never computes with one, it only tests it for truth. *)

Inductive pyfloat :=
| FNaN
| FInf (negative : bool)
| FDec (negative : bool) (mantissa : N) (exp10 : Z).
  (* the binary64 nearest to mantissa * 10^exp10 *)

Inductive json :=
| JNull
| JBool (b : bool)
| JInt (z : Z)
| JFloat (f : pyfloat)
| JStr (s : pystr)
| JList (items : list json)
| JDict (members : dict json).

(** A decimal numeral denotes [0.0] exactly when its value is at most
    2^-1075, half the least subnormal (the tie rounds to even). *)
Definition float_is_zero (f : pyfloat) : bool :=
  match f with
  | FNaN | FInf _ => false
  | FDec _ m e =>
    if (m =? 0)%N then true
    else if (0 <=? e)%Z then false
    else (Z.of_N m * 2 ^ 1075 <=? 10 ^ (- e))%Z
  end.

(** [bool(v)], the test behind [if workout_data:]. *)
Definition truthy (v : json) : bool :=
  match v with
  | JNull => false
  | JBool b => b
  | JInt z => negb (z =? 0)%Z
  | JFloat f => negb (float_is_zero f)
  | JStr s => str_truthy s
  | JList l => match l with [] => false | _ => true end
  | JDict d => match d with [] => false | _ => true end
  end.

(** ** [json.loads]

    The decoder follows the scanner of the [json] module of CPython 3.11
    with its default settings ([strict=True], the constants [NaN],
    [Infinity] and [-Infinity] accepted), together with the two limits
    of the interpreter that it can meet.  Every array or object it
    enters takes one level of the recursion limit, and so does the
    construction of the [JSONDecodeError] with which the scanner reports
    a fault of a string, of a delimiter or of a member name; and [int]
    refuses a long integer numeral.  A limit ends the call with an
    exception that is not a [JSONDecodeError]. *)

(** The text of a [JSONDecodeError] names the position of the fault; the
    program never reads it. *)
Definition JSONDecodeError : exn := mkExn "JSONDecodeError" [].

(** Raised when no level of recursion is left for what the interpreter
    is about to do. *)
Definition RecursionError (doing : pystr) : exn :=
  mkExn "RecursionError" (lit "maximum recursion depth exceeded" ++ doing).

(** The scanner is about to enter a container ([array] or [object]). *)
Definition while_decoding (container : pystr) : pystr :=
  lit " while decoding a JSON " ++ container ++ lit " from a unicode string".

Definition while_calling : pystr := lit " while calling a Python object".

(** Raised by [int] for a numeral of [digits] digits under the limit
    [sys.get_int_max_str_digits()]. *)
Definition ValueError_int_max_str_digits (max_digits digits : nat) : exn :=
  mkExn "ValueError"
        (lit "Exceeds the limit (" ++ str_of_int (Z.of_nat max_digits)
           ++ lit " digits) for integer string conversion: value has "
           ++ str_of_int (Z.of_nat digits)
           ++ lit " digits; use sys.set_int_max_str_digits() to increase the limit").

Definition is_ws (c : char) : bool :=
  (c =? 32)%N || (c =? 9)%N || (c =? 10)%N || (c =? 13)%N.

Definition is_digit (c : char) : bool := (48 <=? c)%N && (c <=? 57)%N.

Fixpoint skip_ws (s : pystr) : pystr :=
  match s with
  | c :: r => if is_ws c then skip_ws r else s
  | [] => []
  end.

(** [strip_prefix p s]: the rest of [s] after [p], when [s] starts with [p]. *)
Fixpoint strip_prefix (p s : pystr) : option pystr :=
  match p, s with
  | [], _ => Some s
  | x :: p', y :: s' => if (x =? y)%N then strip_prefix p' s' else None
  | _ :: _, [] => None
  end.

(** The longest run of digits at the head of [s], and what follows. *)
Fixpoint take_digits (s : pystr) : pystr * pystr :=
  match s with
  | c :: r =>
    if is_digit c then let (d, r') := take_digits r in (c :: d, r') else ([], s)
  | [] => ([], [])
  end.

Definition digits_value (d : pystr) : N :=
  fold_left (fun acc c => (10 * acc + (c - 48))%N) d 0%N.

Definition hex4 (a b c d : char) : option N :=
  match hexval a, hexval b, hexval c, hexval d with
  | Some x, Some y, Some z, Some w => Some (((x * 16 + y) * 16 + z) * 16 + w)%N
  | _, _, _, _ => None
  end.

Definition is_high_surrogate (u : N) : bool := (55296 <=? u)%N && (u <=? 56319)%N.
Definition is_low_surrogate (u : N) : bool := (56320 <=? u)%N && (u <=? 57343)%N.
Definition join_surrogates (hi lo : N) : N :=
  (65536 + (hi - 55296) * 1024 + (lo - 56320))%N.

Definition unescape (e : char) : option char :=
  if (e =? 34)%N then Some 34%N            (* quote *)
  else if (e =? 92)%N then Some 92%N       (* backslash *)
  else if (e =? 47)%N then Some 47%N       (* solidus *)
  else if (e =? 98)%N then Some 8%N        (* b: backspace *)
  else if (e =? 102)%N then Some 12%N      (* f: form feed *)
  else if (e =? 110)%N then Some 10%N      (* n: line feed *)
  else if (e =? 114)%N then Some 13%N      (* r: carriage return *)
  else if (e =? 116)%N then Some 9%N       (* t: tab *)
  else None.

(** [scanstring]: the text after an opening quote, up to the closing one. *)
Fixpoint scanstring (s : pystr) : option (pystr * pystr) :=
  match s with
  | [] => None
  | c :: r =>
    if (c =? 34)%N then Some ([], r)
    else if (c =? 92)%N then
      match r with
      | [] => None
      | e :: r1 =>
        if (e =? 117)%N then
          match r1 with
          | h1 :: h2 :: h3 :: h4 :: r2 =>
            match hex4 h1 h2 h3 h4 with
            | None => None
            | Some u =>
              let single :=
                match scanstring r2 with
                | Some (v, rest) => Some (u :: v, rest)
                | None => None
                end in
              if is_high_surrogate u then
                match r2 with
                | b :: x :: g1 :: g2 :: g3 :: g4 :: r3 =>
                  if (b =? 92)%N && (x =? 117)%N then
                    match hex4 g1 g2 g3 g4 with
                    | None => None
                    | Some u2 =>
                      if is_low_surrogate u2 then
                        match scanstring r3 with
                        | Some (v, rest) => Some (join_surrogates u u2 :: v, rest)
                        | None => None
                        end
                      else single
                    end
                  else single
                | _ => single
                end
              else single
            end
          | _ => None
          end
        else
          match unescape e with
          | Some x =>
            match scanstring r1 with
            | Some (v, rest) => Some (x :: v, rest)
            | None => None
            end
          | None => None
          end
      end
    else if (c <=? 31)%N then None
    else
      match scanstring r with
      | Some (v, rest) => Some (c :: v, rest)
      | None => None
      end
  end.

(** The exponent part ([e] or [E], an optional sign, digits), when present. *)
Definition match_exponent (s : pystr) : option (Z * pystr) :=
  match s with
  | c :: r =>
    if (c =? 101)%N || (c =? 69)%N then
      let '(sign, r1) :=
        match r with
        | x :: r' =>
          if (x =? 45)%N then (-1, r')%Z
          else if (x =? 43)%N then (1, r')%Z
          else (1, r)%Z
        | [] => (1, r)%Z
        end in
      match take_digits r1 with
      | ([], _) => None
      | (d, rest) => Some ((sign * Z.of_N (digits_value d))%Z, rest)
      end
    else None
  | [] => None
  end.

(** The fraction part (a dot and digits), when present. *)
Definition match_fraction (s : pystr) : option (pystr * pystr) :=
  match s with
  | c :: r =>
    if (c =? 46)%N then
      match take_digits r with
      | ([], _) => None
      | (d, rest) => Some (d, rest)
      end
    else None
  | [] => None
  end.

(** The optional minus sign of a numeral. *)
Definition match_sign (s : pystr) : bool * pystr :=
  match s with
  | c :: r => if (c =? 45)%N then (true, r) else (false, s)
  | [] => (false, s)
  end.

(** The integer part of a numeral: [0], or a run of digits that does not
    start with [0]. *)
Definition match_integer (s : pystr) : option (pystr * pystr) :=
  match s with
  | c :: r =>
    if (c =? 48)%N then Some ([c], r)
    else if is_digit c then let (d, r') := take_digits r in Some (c :: d, r')
    else None
  | [] => None
  end.

(** A numeral: an optional minus sign, the integer part, then an optional
    fraction and an optional exponent.  It is an [int] when it has
    neither fraction nor exponent, a [float] otherwise. *)
Definition match_number (s : pystr) : option (json * pystr) :=
  let '(neg, s1) := match_sign s in
  match match_integer s1 with
  | None => None
  | Some (ds, s2) =>
    let '(frac, s3) :=
      match match_fraction s2 with
      | Some (f, r) => (Some f, r)
      | None => (None, s2)
      end in
    let '(expo, s4) :=
      match match_exponent s3 with
      | Some (e, r) => (Some e, r)
      | None => (None, s3)
      end in
    match frac, expo with
    | None, None =>
      let n := Z.of_N (digits_value ds) in
      Some (JInt (if neg then (- n)%Z else n), s4)
    | _, _ =>
      let f := match frac with Some f => f | None => [] end in
      let e := match expo with Some e => e | None => 0%Z end in
      Some (JFloat (FDec neg (digits_value (ds ++ f))
                         (e - Z.of_nat (List.length f))%Z), s4)
    end
  end.

(** How many digits the integer part of the numeral at the head of [s]
    has. *)
Definition integer_digits (s : pystr) : nat :=
  match match_integer (snd (match_sign s)) with
  | Some (ds, _) => List.length ds
  | None => 0
  end.

(** [int(numeral)] under [sys.set_int_max_str_digits(max_digits)]: a
    numeral of more than 640 digits is refused when a limit is set (it is
    not [0]) and the numeral has more digits than the limit allows. *)
Definition exceeds_int_max_str_digits (max_digits digits : nat) : bool :=
  (640 <? digits)%nat && (0 <? max_digits)%nat && (max_digits <? digits)%nat.

(** The exception, if any, with which the conversion of the numeral at
    the head of [s] ends, [v] being the value [match_number] read there:
    only an [int] is converted by [int]. *)
Definition int_refused (max_digits : nat) (s : pystr) (v : json) : option exn :=
  match v with
  | JInt _ =>
    if exceeds_int_max_str_digits max_digits (integer_digits s)
    then Some (ValueError_int_max_str_digits max_digits (integer_digits s))
    else None
  | _ => None
  end.

(** The levels of recursion left to the scanner: [None] stands for no
    limit.  [enter depth] is what is left inside a container, when it
    can be entered at all. *)
Definition enter (depth : option nat) : option (option nat) :=
  match depth with
  | None => Some None
  | Some (S d) => Some (Some d)
  | Some O => None
  end.

Inductive parsed (A : Type) :=
| Parsed (a : A) (rest : pystr)
| Malformed
| Aborted (e : exn)
| OutOfFuel.
Arguments Malformed {A}.
Arguments Aborted {A}.
Arguments OutOfFuel {A}.

(** [raise_errmsg] of the scanner: the fault of a string, of a delimiter
    or of a member name is reported from where the scanner stands, by
    constructing a [JSONDecodeError]; that takes three levels of
    recursion, and fails in its own way with fewer.  (Where a value is
    expected and none starts, the scanner only signals it, and the
    [JSONDecodeError] is raised by its caller.) *)
Definition raise_errmsg {A} (depth : option nat) : parsed A :=
  match depth with
  | Some 0 => Aborted (RecursionError while_calling)
  | Some 1 => Aborted (RecursionError [])
  | Some 2 => Aborted (RecursionError while_calling)
  | _ => Malformed
  end.

(** [scan_once] reads one value at the head of [s]; [parse_items] the
    elements of an array after its bracket; [parse_pairs] the members of
    an object after its brace.  Later assignments to a key overwrite.
    The scanner stops at the first fault it meets, be it a fault of the
    text ([Malformed]) or a limit of the interpreter ([Aborted]). *)
Fixpoint scan_once (max_digits : nat) (depth : option nat) (fuel : nat)
         (s : pystr) {struct fuel} : parsed json :=
  match fuel with
  | O => OutOfFuel
  | S fuel' =>
    match s with
    | [] => Malformed
    | c :: r =>
      if (c =? 34)%N then
        match scanstring r with
        | Some (v, rest) => Parsed (JStr v) rest
        | None => raise_errmsg depth
        end
      else if (c =? 123)%N then
        match enter depth with
        | None => Aborted (RecursionError (while_decoding (lit "object")))
        | Some inner =>
          match skip_ws r with
          | x :: r' =>
            if (x =? 125)%N then Parsed (JDict []) r'
            else parse_pairs max_digits inner fuel' (x :: r') []
          | [] => raise_errmsg inner
          end
        end
      else if (c =? 91)%N then
        match enter depth with
        | None => Aborted (RecursionError (while_decoding (lit "array")))
        | Some inner =>
          match skip_ws r with
          | x :: r' =>
            if (x =? 93)%N then Parsed (JList []) r'
            else parse_items max_digits inner fuel' (x :: r') []
          | [] => Malformed
          end
        end
      else
        match strip_prefix (lit "null") s with
        | Some rest => Parsed JNull rest
        | None =>
        match strip_prefix (lit "true") s with
        | Some rest => Parsed (JBool true) rest
        | None =>
        match strip_prefix (lit "false") s with
        | Some rest => Parsed (JBool false) rest
        | None =>
        match strip_prefix (lit "NaN") s with
        | Some rest => Parsed (JFloat FNaN) rest
        | None =>
        match strip_prefix (lit "Infinity") s with
        | Some rest => Parsed (JFloat (FInf false)) rest
        | None =>
        match strip_prefix (lit "-Infinity") s with
        | Some rest => Parsed (JFloat (FInf true)) rest
        | None =>
        match match_number s with
        | Some (v, rest) =>
          match int_refused max_digits s v with
          | Some e => Aborted e
          | None => Parsed v rest
          end
        | None => Malformed
        end end end end end end end
    end
  end

with parse_items (max_digits : nat) (depth : option nat) (fuel : nat)
                 (s : pystr) (acc : list json) {struct fuel} : parsed json :=
  match fuel with
  | O => OutOfFuel
  | S fuel' =>
    match scan_once max_digits depth fuel' s with
    | Parsed v r =>
      match skip_ws r with
      | x :: r' =>
        if (x =? 93)%N then Parsed (JList (rev (v :: acc))) r'
        else if (x =? 44)%N
             then parse_items max_digits depth fuel' (skip_ws r') (v :: acc)
        else raise_errmsg depth
      | [] => raise_errmsg depth
      end
    | Malformed => Malformed
    | Aborted e => Aborted e
    | OutOfFuel => OutOfFuel
    end
  end

with parse_pairs (max_digits : nat) (depth : option nat) (fuel : nat)
                 (s : pystr) (acc : dict json) {struct fuel} : parsed json :=
  match fuel with
  | O => OutOfFuel
  | S fuel' =>
    match s with
    | q :: r =>
      if (q =? 34)%N then
        match scanstring r with
        | Some (key, r1) =>
          match skip_ws r1 with
          | colon :: r2 =>
            if (colon =? 58)%N then
              match scan_once max_digits depth fuel' (skip_ws r2) with
              | Parsed v r3 =>
                match skip_ws r3 with
                | x :: r4 =>
                  if (x =? 125)%N then Parsed (JDict (dict_set key v acc)) r4
                  else if (x =? 44)%N then
                    parse_pairs max_digits depth fuel' (skip_ws r4)
                                (dict_set key v acc)
                  else raise_errmsg depth
                | [] => raise_errmsg depth
                end
              | Malformed => Malformed
              | Aborted e => Aborted e
              | OutOfFuel => OutOfFuel
              end
            else raise_errmsg depth
          | [] => raise_errmsg depth
          end
        | None => raise_errmsg depth
        end
      else raise_errmsg depth
    | [] => raise_errmsg depth
    end
  end.

(** A text that starts with a byte-order mark, U+FEFF, is refused. *)
Definition starts_with_bom (s : pystr) : bool :=
  match s with
  | c :: _ => (c =? 65279)%N
  | [] => false
  end.

(** The value a text denotes as JSON, when it is valid JSON: what the
    scanner reads when no limit of the interpreter stands in its way.
    White space may surround the value. *)
Definition valid_json (s : pystr) : option json :=
  if starts_with_bom s then None
  else
    match scan_once 0 None (2 * List.length s + 1) (skip_ws s) with
    | Parsed v rest =>
      match skip_ws rest with
      | [] => Some v
      | _ :: _ => None
      end
    | _ => None
    end.

(** [json.loads(s)] in an interpreter that has [2 + recursion_headroom]
    levels of recursion left when the scanner starts, and whose limit on
    the digits of an integer is [max_digits] ([0]: no limit).  The call
    returns the value, raises [JSONDecodeError] for a fault of the text,
    or raises the exception of the limit it met first.  (With those two
    levels the callers of the scanner can raise their own
    [JSONDecodeError]s: for a byte-order mark, for a text where no value
    starts, for text after the value.) *)
Definition json_loads (recursion_headroom max_digits : nat) (s : pystr)
  : reply json :=
  if starts_with_bom s then Raised JSONDecodeError
  else
    match scan_once max_digits (Some (S (S recursion_headroom)))
                    (2 * List.length s + 1) (skip_ws s) with
    | Parsed v rest =>
      match skip_ws rest with
      | [] => Ok v
      | _ :: _ => Raised JSONDecodeError
      end
    | Aborted e => Raised e
    | Malformed | OutOfFuel => Raised JSONDecodeError
    end.

(** ** [json.dumps(obj, indent=2)]

    With an indent the item separator is a comma followed by a line break
    and the key separator is a colon and a space; [ensure_ascii] is on.
    The text of a float that a decimal numeral denotes (the shortest
    [repr] of the nearest binary64, or an infinity when the numeral
    overflows) is given by [float_repr], an answer of the interpreter.
    The encoder nests one frame per container, from a caller that is
    itself less deep than the one of [json.loads]: on a value that was
    decoded in the same run it does not meet the recursion limit, nor
    the limit on the digits of an integer. *)

Definition hex_digit (n : N) : char :=
  if (n <? 10)%N then (48 + n)%N else (87 + n)%N.

Definition u_escape (n : N) : pystr :=
  lit "\\u" ++ [hex_digit (n / 4096 mod 16); hex_digit (n / 256 mod 16);
                hex_digit (n / 16 mod 16); hex_digit (n mod 16)]%N.

Definition escape_char (c : char) : pystr :=
  if (c =? 34)%N then lit "\\\x22"
  else if (c =? 92)%N then lit "\\\\"
  else if (c =? 10)%N then lit "\\n"
  else if (c =? 13)%N then lit "\\r"
  else if (c =? 9)%N then lit "\\t"
  else if (c =? 8)%N then lit "\\b"
  else if (c =? 12)%N then lit "\\f"
  else if (32 <=? c)%N && (c <=? 126)%N then [c]
  else if (c <? 65536)%N then u_escape c
  else
    let v := (c - 65536)%N in
    u_escape (55296 + (v / 1024) mod 1024)%N ++ u_escape (56320 + v mod 1024)%N.

Definition encode_basestring_ascii (s : pystr) : pystr :=
  lit "\x22" ++ flat_map escape_char s ++ lit "\x22".

Definition newline_indent (level : nat) : pystr :=
  10%N :: repeat 32%N (2 * level).

(** [floatstr] of the encoder. *)
Definition floatstr (float_repr : pyfloat -> pystr) (f : pyfloat) : pystr :=
  match f with
  | FNaN => lit "NaN"
  | FInf false => lit "Infinity"
  | FInf true => lit "-Infinity"
  | FDec _ _ _ => float_repr f
  end.

Section Containers.
(* the encoder of the items, one level deeper *)
Variable encode_item : json -> pystr.
Variable level : nat.

(** The items of a non-empty list: the bracket, then each item on a line
    of its own, a comma after all but the last, then the closing
    bracket at the outer indent. *)
Fixpoint iterencode_list (first : bool) (l : list json) : pystr :=
  match l with
  | [] => newline_indent level ++ lit "]"
  | x :: l' =>
    (if first then lit "[" else lit ",")
      ++ newline_indent (S level) ++ encode_item x ++ iterencode_list false l'
  end.

(** The same for the members of a non-empty dict, each key followed by a
    colon and a space. *)
Fixpoint iterencode_dict (first : bool) (l : dict json) : pystr :=
  match l with
  | [] => newline_indent level ++ lit "}"
  | (k, x) :: l' =>
    (if first then lit "{" else lit ",")
      ++ newline_indent (S level)
      ++ encode_basestring_ascii k ++ lit ": " ++ encode_item x
      ++ iterencode_dict false l'
  end.
End Containers.

Fixpoint iterencode (float_repr : pyfloat -> pystr) (level : nat) (o : json)
  : pystr :=
  match o with
  | JNull => lit "null"
  | JBool true => lit "true"
  | JBool false => lit "false"
  | JInt z => str_of_int z
  | JFloat f => floatstr float_repr f
  | JStr s => encode_basestring_ascii s
  | JList [] => lit "[]"
  | JList items =>
    iterencode_list (iterencode float_repr (S level)) level true items
  | JDict [] => lit "{}"
  | JDict members =>
    iterencode_dict (iterencode float_repr (S level)) level true members
  end.

Definition json_dumps_indent2 (float_repr : pyfloat -> pystr) (o : json)
  : pystr :=
  iterencode float_repr 0 o.

(** ** pandas

    A frame is its column labels and its rows.  A cell holds a [str], an
    [int], or an object of another type (a float, a bool, a missing
    value, a nested list or dict), which is carried as the text that
    [to_csv] writes for it. *)

Inductive cell := CStr (s : pystr) | CInt (z : Z) | CObj (written : pystr).

Record DataFrame := mkDataFrame { columns : list pystr; rows : list (list cell) }.

Fixpoint all_some {A} (l : list (option A)) : option (list A) :=
  match l with
  | [] => Some []
  | Some x :: l' =>
    match all_some l' with Some r => Some (x :: r) | None => None end
  | None :: _ => None
  end.

Definition add_keys (cols ks : list pystr) : list pystr :=
  fold_left (fun acc k => if existsb (str_eqb k) acc then acc else acc ++ [k])
            ks cols.

Definition union_keys (dicts : list (dict json)) : list pystr :=
  fold_left (fun acc d => add_keys acc (dict_keys d)) dicts [].

Definition as_dict (v : json) : option (dict json) :=
  match v with JDict d => Some d | _ => None end.

Definition cell_of_json (v : json) : option cell :=
  match v with
  | JStr s => Some (CStr s)
  | JInt z => Some (CInt z)
  | _ => None
  end.

Definition record_row (cols : list pystr) (d : dict json) : option (list cell) :=
  all_some (map (fun c => match dict_get c d with
                          | Some v => cell_of_json v
                          | None => None
                          end) cols).

(** The frame of a list of records: a non-empty list of dicts that all
    carry the same keys, with [str] and [int] values.  The columns are
    the keys in order of first appearance, there is one row per dict.
    [None] for any other value. *)
Definition frame_of_records (data : json) : option DataFrame :=
  match data with
  | JList ((_ :: _) as records) =>
    match all_some (map as_dict records) with
    | Some dicts =>
      match union_keys dicts with
      | [] => None
      | cols =>
        match all_some (map (record_row cols) dicts) with
        | Some rs => Some {| columns := cols; rows := rs |}
        | None => None
        end
      end
    | None => None
    end
  | _ => None
  end.

Definition DataFrame_not_properly_called : exn :=
  mkExn "ValueError" (lit "DataFrame constructor not properly called!").

(** [pd.DataFrame(data)].  A scalar (a number, a bool, a [str]) is
    refused with a [ValueError]; a list of records gives the frame
    above.  On every other value (records with missing, null, float or
    nested members, a dict, a list of scalars or of lists) the
    constructor builds some frame or raises: that answer is pandas' own
    and is given by [elsewhere]. *)
Definition pd_DataFrame (elsewhere : json -> reply DataFrame) (data : json)
  : reply DataFrame :=
  match data with
  | JBool _ | JInt _ | JFloat _ | JStr _ => Raised DataFrame_not_properly_called
  | _ =>
    match frame_of_records data with
    | Some df => Ok df
    | None => elsewhere data
    end
  end.

(** [df.to_csv(index=False)] hands the header and then every row to a
    [csv.writer] with the default dialect: comma delimiter, minimal
    quoting (a field is quoted when it holds the delimiter, the quote
    character or a character of the line terminator; quotes are doubled),
    and the line terminator of a POSIX host.  A record that would be empty
    is written as a pair of quotes. *)

Definition lineterminator : pystr := lit "\n".

Definition needs_quote (s : pystr) : bool :=
  existsb (fun c => (c =? 44)%N || (c =? 34)%N
                    || existsb (N.eqb c) lineterminator) s.

Definition csv_quote (s : pystr) : pystr :=
  lit "\x22" ++ flat_map (fun c => if (c =? 34)%N then [c; c] else [c]) s
             ++ lit "\x22".

Definition csv_field (s : pystr) : pystr :=
  if needs_quote s then csv_quote s else s.

Definition csv_writerow (fields : list pystr) : pystr :=
  let record := str_join (lit ",") (map csv_field fields) in
  match fields, record with
  | _ :: _, [] => lit "\x22\x22" ++ lineterminator
  | _, _ => record ++ lineterminator
  end.

Definition cell_str (c : cell) : pystr :=
  match c with CStr s => s | CInt z => str_of_int z | CObj written => written end.

Definition to_csv (df : DataFrame) : pystr :=
  csv_writerow (columns df)
    ++ flat_map (fun r => csv_writerow (map cell_str r)) (rows df).

(** ** The table widget

    [st.dataframe(df, ...)] serialises the frame for the browser.  A
    frame whose cells are [str]s and [int]s within 64 bits is serialised
    and shown.  For any other frame (a larger [int], a cell of another
    type) the widget shows the table or raises: that answer is the
    framework's own and is given by [elsewhere]. *)

Definition is_int64 (z : Z) : bool := (- 2 ^ 63 <=? z)%Z && (z <? 2 ^ 63)%Z.

Definition plain_cell (c : cell) : bool :=
  match c with
  | CStr _ => true
  | CInt z => is_int64 z
  | CObj _ => false
  end.

Definition st_dataframe (elsewhere : DataFrame -> reply unit) (df : DataFrame)
  : reply unit :=
  if forallb (forallb plain_cell) (rows df) then Ok tt else elsewhere df.

(** ** The shape the prompt asks for

    An exercise record is a dict with exactly the members [exercise] (a
    [str]), [sets] and [reps] (both [int]), in any order. *)







(** ** Calls and the run of a script *)

Definition IndexError : exn :=
  mkExn "IndexError" (lit "list index out of range").

Definition TypeError_loads_None : exn :=
  mkExn "TypeError"
        (lit "the JSON object must be str, bytes or bytearray, not NoneType").

(** *** The transcript provider (youtube_transcript_api)

    A track has a display name ([language], such as [English]), a code
    ([language_code], such as [en]) and a flag for generated captions;
    [fetch()] yields its segments or raises.  A segment is a dict with the
    keys [text], [start] and [duration]. *)

Record Segment := mkSegment { text : pystr; start : pyfloat; duration : pyfloat }.

Record Transcript := mkTranscript {
  language : pystr;
  language_code : pystr;
  is_generated : bool;
  fetch : reply (list Segment)
}.

(** The tracks of a video in the order in which the list enumerates them,
    and the [NoTranscriptFound] that [find_transcript] raises for it. *)
Record TranscriptList := mkTranscriptList {
  tracks : list Transcript;
  no_transcript_found : exn
}.

(** [find_transcript(language_codes)]: the codes are tried in order, each
    against the tracks in enumeration order. *)
Fixpoint find_transcript (language_codes : list pystr) (tl : TranscriptList)
  : reply Transcript :=
  match language_codes with
  | [] => Raised (no_transcript_found tl)
  | code :: rest =>
    match find (fun t => str_eqb (language_code t) code) (tracks tl) with
    | Some t => Ok t
    | None => find_transcript rest tl
    end
  end.

(** *** The completion provider (openai client)

    [response.choices[0].message.content] is read from these records;
    [content] is optional in the client's types. *)

Record ChatCompletionMessage := mkMessage { content : option pystr }.
Record Choice := mkChoice { message : ChatCompletionMessage }.
Record ChatCompletion := mkChatCompletion { choices : list Choice }.

(** *** What one run observes *)

Inductive event :=
| StError (body : pystr)
| StWarning (body : pystr)
| StSubheader (body : pystr)
| StMarkdown (body : pystr) (unsafe_allow_html : bool)
| StSpinner (label : pystr)
| StDataframe (data : DataFrame) (column_config : dict pystr)
              (hide_index use_container_width : bool)
| StColumns (spec : nat)
| StDownloadButton (label data file_name mime : pystr)
| CallListTranscripts (video_id : pystr) (answer : reply TranscriptList)
| CallFetch (track : Transcript)
| CallOpenAI (api_key base_url : pystr) (answer : reply unit)
| CallCompletionsCreate (model : pystr) (messages : list (dict pystr))
                        (answer : reply ChatCompletion)
| CallDataFrame (data : json).

(** The environment of a run: the configured key, the answers of the
    collaborators, and the interpreter.  [json.loads], called at line
    108, can nest [2 + recursion_headroom] containers before it meets
    the recursion limit: a run that is closer to the limit than that
    when it reaches line 108 is not covered.
    [int_max_str_digits] is [sys.get_int_max_str_digits()], with [0] for
    no limit; [float_repr] is the text of the float a decimal numeral
    denotes; [DataFrame_elsewhere] is the answer of [pd.DataFrame] on a
    value that is neither a scalar nor a list of records;
    [st_dataframe_elsewhere] is the answer of [st.dataframe] on a frame
    with other cells than [str]s and 64-bit [int]s. *)
Record World := mkWorld {
  PERPLEXITY_API_KEY : option pystr;
  list_transcripts : pystr -> reply TranscriptList;
  OpenAI : pystr -> pystr -> reply unit;
  chat_completions_create : pystr -> list (dict pystr) -> reply ChatCompletion;
  recursion_headroom : nat;
  int_max_str_digits : nat;
  float_repr : pyfloat -> pystr;
  DataFrame_elsewhere : json -> reply DataFrame;
  st_dataframe_elsewhere : DataFrame -> reply unit
}.

(** A computation logs its events in order and then returns or raises. *)
Inductive outcome (A : Type) :=
| Return (a : A)
| Raise (e : exn).
Arguments Raise {A}.

Definition M (A : Type) : Type := list event * outcome A.

Definition ret {A} (a : A) : M A := ([], Return a).

Definition bind {A B} (m : M A) (k : A -> M B) : M B :=
  match m with
  | (t, Return a) => let (t', o) := k a in (t ++ t', o)
  | (t, Raise e) => (t, Raise e)
  end.

Notation "x <- m ;; k" := (bind m (fun x => k))
  (at level 61, m at next level, right associativity).
Notation "m ;; k" := (bind m (fun _ => k))
  (at level 61, right associativity).

Definition emit (ev : event) : M unit := ([ev], Return tt).
Definition raise {A} (e : exn) : M A := ([], Raise e).

Definition of_reply {A} (r : reply A) : M A :=
  match r with Ok a => ret a | Raised e => raise e end.

(** [try: body except <classes> as e: handler e] *)
Definition try_except {A} (body : M A) (catches : exn -> bool)
           (handler : exn -> M A) : M A :=
  match body with
  | (t, Raise e) =>
    if catches e then let (t', o) := handler e in (t ++ t', o)
    else (t, Raise e)
  | other => other
  end.

Definition except_Exception (e : exn) : bool := true.
Definition except_JSONDecodeError (e : exn) : bool :=
  String.eqb (exn_class e) "JSONDecodeError".

Definition trace {A} (m : M A) : list event := fst m.
Definition result {A} (m : M A) : outcome A := snd m.

(** [l[0]] *)
Definition index0 {A} (l : list A) : M A :=
  match l with x :: _ => ret x | [] => raise IndexError end.

(** ** pytube: [extract.video_id]

    [regex_search] looks for the leftmost match of either [v=] or a slash
    followed by eleven characters among digits, letters, underscore and
    hyphen, and returns the eleven; without a match it raises
    [RegexMatchError]. *)

Definition is_id_char (c : char) : bool :=
  is_digit c || ((65 <=? c)%N && (c <=? 90)%N)
  || ((97 <=? c)%N && (c <=? 122)%N) || (c =? 95)%N || (c =? 45)%N.

Fixpoint take_id (n : nat) (s : pystr) : option pystr :=
  match n with
  | O => Some []
  | S n' =>
    match s with
    | c :: r =>
      if is_id_char c
      then match take_id n' r with Some i => Some (c :: i) | None => None end
      else None
    | [] => None
    end
  end.

Fixpoint regex_search_video_id (s : pystr) : option pystr :=
  match s with
  | [] => None
  | c :: r =>
    let here :=
      if (c =? 47)%N then take_id 11 r
      else if (c =? 118)%N then
        match r with
        | x :: r' => if (x =? 61)%N then take_id 11 r' else None
        | [] => None
        end
      else None in
    match here with
    | Some i => Some i
    | None => regex_search_video_id r
    end
  end.

Definition RegexMatchError : exn :=
  mkExn "RegexMatchError"
        (lit "regex_search: could not find match for (?:v=|\\/)([0-9A-Za-z_-]{11}).*").

Definition extract_dot_video_id (url : pystr) : reply pystr :=
  match regex_search_video_id url with
  | Some i => Ok i
  | None => Raised RegexMatchError
  end.

(** ** The program *)

(** [extract_video_id] (lines 26-32) *)
Definition extract_video_id (url : pystr) : M (option pystr) :=
  try_except
    (i <- of_reply (extract_dot_video_id url) ;; ret (Some i))
    except_Exception
    (fun e =>
       emit (StError (lit "Error extracting video ID: " ++ exn_str e)) ;;
       ret None).

(** [get_transcript] (lines 35-55).  The dict [available_transcripts] is
    keyed by [transcript.language]. *)
Definition get_transcript (w : World) (video_id : pystr)
  : M (option (list Segment)) :=
  try_except
    (let answer := list_transcripts w video_id in
     emit (CallListTranscripts video_id answer) ;;
     transcript_list <- of_reply answer ;;
     let available_transcripts :=
       fold_left
         (fun d transcript =>
            dict_set (language transcript)
                     (language transcript, is_generated transcript) d)
         (tracks transcript_list) [] in
     if dict_contains (lit "en") available_transcripts then
       transcript <- of_reply (find_transcript [lit "en"] transcript_list) ;;
       emit (CallFetch transcript) ;;
       segments <- of_reply (fetch transcript) ;;
       ret (Some segments)
     else
       transcript <- index0 (tracks transcript_list) ;;
       emit (CallFetch transcript) ;;
       segments <- of_reply (fetch transcript) ;;
       ret (Some segments))
    except_Exception
    (fun e =>
       emit (StError (lit "Error getting transcript: " ++ exn_str e)) ;;
       ret None).

Definition prompt_head : pystr :=
  lit "\n    Extract workout details (exercise name, sets, reps) from the following transcript:\n    ".

Definition prompt_tail : pystr :=
  lit "\n\n    Return just the result as a JSON list with this structure:\n    [\n        {\x22exercise\x22: \x22Push-ups\x22, \x22sets\x22: 3, \x22reps\x22: 15},\n        {\x22exercise\x22: \x22Squats\x22, \x22sets\x22: 4, \x22reps\x22: 12}\n    ]\n    \n    Please do not add anything else, simply return the JSON list. This includes adding markdown formatting.\n    ".

Definition system_content : pystr :=
  lit "You are an assistant that extracts workout details. You will extract information related to exercises, sets, and reps. You will only get information about exercises related to weightlifting or bodyweight exercises.".

(** The two request dicts of lines 79-82. *)
Definition build_messages (prompt : pystr) : list (dict pystr) :=
  [ [(lit "role", lit "system"); (lit "content", system_content)];
    [(lit "role", lit "user"); (lit "content", prompt)] ].

(** [json.loads] in the interpreter of the run. *)
Definition json_loads_in (w : World) (s : pystr) : reply json :=
  json_loads (recursion_headroom w) (int_max_str_digits w) s.

(** [json.loads(extracted_data)] on the optional content. *)
Definition loads (w : World) (extracted_data : option pystr) : M json :=
  match extracted_data with
  | None => raise TypeError_loads_None
  | Some s => of_reply (json_loads_in w s)
  end.

(** Lines 104-111 of [extract_workout_perplexity]: reading the answer.
    Python's [None] is [JNull].  The handler of line 109 catches
    [JSONDecodeError] and nothing else. *)
Definition read_completion (w : World) (response : ChatCompletion) : M json :=
  choice <- index0 (choices response) ;;
  let extracted_data := content (message choice) in
  try_except
    (loads w extracted_data)
    except_JSONDecodeError
    (fun _ =>
       emit (StError (lit "Failed to parse Perplexity response as JSON.")) ;;
       ret JNull).

(** [extract_workout_perplexity] (lines 58-111).  Inside the [try] block a
    [return None] leaves the function ([inl]); falling out of the block
    continues with the response ([inr]). *)
Definition extract_workout_perplexity (w : World)
           (transcript : option (list Segment)) : M json :=
  match transcript with
  | None | Some [] =>
    emit (StWarning (lit "No transcript available for this video.")) ;;
    ret JNull
  | Some entries =>
    let transcript_text := str_join (lit " ") (map text entries) in
    let prompt := prompt_head ++ transcript_text ++ prompt_tail in
    let messages := build_messages prompt in
    let missing_key : M (json + ChatCompletion) :=
      emit (StError (lit "Perplexity API key is missing. Please add it to your .env file.")) ;;
      ret (inl JNull) in
    r <- try_except
           (match PERPLEXITY_API_KEY w with
            | None => missing_key
            | Some key =>
              if negb (str_truthy key) then missing_key
              else
                let base_url := lit "https://api.perplexity.ai" in
                let built := OpenAI w key base_url in
                emit (CallOpenAI key base_url built) ;;
                of_reply built ;;
                emit (StSpinner (lit "Analyzing workout content...")) ;;
                let answer := chat_completions_create w (lit "sonar") messages in
                emit (CallCompletionsCreate (lit "sonar") messages answer) ;;
                response <- of_reply answer ;;
                ret (inr response)
            end)
           except_Exception
           (fun e =>
              emit (StError (lit "Failed to connect to Perplexity API: "
                               ++ exn_str e)) ;;
              ret (inl JNull)) ;;
    match r with
    | inl v => ret v
    | inr response => read_completion w response
    end
  end.

(** [embed_youtube_video] (lines 114-123) *)
Definition embed_youtube_video (video_id : pystr) : pystr :=
  lit "\n    <div style=\x22position: relative; padding-bottom: 56.25%; height: 0; overflow: hidden; max-width: 100%; border-radius: 10px;\x22>\n        <iframe src=\x22https://www.youtube.com/embed/"
  ++ video_id
  ++ lit "\x22 \n            style=\x22position: absolute; top: 0; left: 0; width: 100%; height: 100%; border: 0;\x22 \n            allowfullscreen>\n        </iframe>\n    </div>\n    ".

(** Lines 153-193 of the button handler: the table and the two downloads
    for a truthy result, a warning otherwise.  The constructor of line
    157 and the widget of line 160 are called outside any [try]: what
    they raise leaves the run. *)
Definition present (w : World) (workout_data : json) : M unit :=
  if truthy workout_data then
    emit (StSubheader (lit "Extracted Workout Plan")) ;;
    emit (CallDataFrame workout_data) ;;
    workout_df <- of_reply (pd_DataFrame (DataFrame_elsewhere w) workout_data) ;;
    of_reply (st_dataframe (st_dataframe_elsewhere w) workout_df) ;;
    emit (StDataframe workout_df
            [(lit "exercise", lit "Exercise"); (lit "sets", lit "Sets");
             (lit "reps", lit "Reps")]
            true true) ;;
    emit (StColumns 2) ;;
    let csv := to_csv workout_df in
    emit (StDownloadButton (lit "Download CSV") csv
            (lit "workout_plan.csv") (lit "text/csv")) ;;
    let json_str := json_dumps_indent2 (float_repr w) workout_data in
    emit (StDownloadButton (lit "Download JSON") json_str
            (lit "workout_plan.json") (lit "application/json"))
  else
    emit (StWarning (lit "Could not extract workout plan from this video.")).

(** Lines 135-197: what a run does with the text input [youtube_url],
    [button] telling whether the action was triggered. *)
Definition main (w : World) (button : bool) (youtube_url : pystr) : M unit :=
  if button then
    if str_truthy youtube_url then
      video_id <- extract_video_id youtube_url ;;
      match video_id with
      | Some vid =>
        if str_truthy vid then
          emit (StSubheader (lit "Video")) ;;
          emit (StMarkdown (embed_youtube_video vid) true) ;;
          emit (StSpinner (lit "Getting video transcript...")) ;;
          transcript <- get_transcript w vid ;;
          match transcript with
          | Some (_ :: _) =>
            workout_data <- extract_workout_perplexity w transcript ;;
            present w workout_data
          | _ =>
            emit (StWarning (lit "No transcript available for this video."))
          end
        else ret tt
      | None => ret tt
      end
    else emit (StWarning (lit "Please enter a YouTube URL to process."))
  else ret tt.

(** Following the specification's words for the prompt body: the segment
    texts in order, every text after the first preceded by one space. *)
Definition single_space_joined (texts : list pystr) : pystr :=
  match texts with
  | [] => []
  | t :: rest => t ++ flat_map (fun u => 32%N :: u) rest
  end.

(** ** Observations on a trace *)

Definition is_error (ev : event) : bool :=
  match ev with StError _ => true | _ => false end.

Definition is_warning (ev : event) : bool :=
  match ev with StWarning _ => true | _ => false end.

Definition is_download (ev : event) : bool :=
  match ev with StDownloadButton _ _ _ _ => true | _ => false end.

Definition is_completion_call (ev : event) : bool :=
  match ev with CallCompletionsCreate _ _ _ => true | _ => false end.

Definition is_client_call (ev : event) : bool :=
  match ev with CallOpenAI _ _ _ => true | _ => false end.

Definition is_render (ev : event) : bool :=
  match ev with
  | CallDataFrame _ | StDataframe _ _ _ _ => true
  | _ => false
  end.

(** Events that are neither messages to the user, nor downloads, nor a
    request to the completion endpoint, nor a use of pandas. *)
Definition is_plain (ev : event) : bool :=
  negb (is_error ev || is_warning ev || is_download ev
        || is_completion_call ev || is_render ev).

(** ** Sample runs

    The scenario of the specification: two segments, and a completion
    whose content is the two-record array.  The interpreter of the
    sample runs has the default limits of CPython 3.11: a recursion
    limit of 1000, of which 993 levels are left to the scanner when
    [json.loads] is called from a function of a script, and 4300 digits
    for an integer.  No sample run decodes a float or shows a frame
    with other cells than [str]s and 64-bit [int]s.  The one value
    beyond scalars and lists of records that a sample run hands to
    pandas is a dict of scalars, which the constructor refuses. *)

Definition all_scalar_values : exn :=
  mkExn "ValueError" (lit "If using all scalar values, you must pass an index").

Definition constant_world (key : option pystr) (listing : reply TranscriptList)
           (client : reply unit) (answer : reply ChatCompletion) : World :=
  mkWorld key (fun _ => listing) (fun _ _ => client) (fun _ _ => answer)
          991 4300 (fun _ => lit "0.0") (fun _ => Raised all_scalar_values)
          (fun _ => Ok tt).

Definition zero_seconds : pyfloat := FDec false 0 0.

Definition demo_url : pystr := lit "https://www.youtube.com/watch?v=dQw4w9WgXcQ".
Definition demo_id : pystr := lit "dQw4w9WgXcQ".

Definition demo_segments : list Segment :=
  [ mkSegment (lit "Do three sets of push-ups, fifteen reps each") zero_seconds zero_seconds;
    mkSegment (lit "then four sets of squats, twelve reps") zero_seconds zero_seconds ].

Definition not_found : exn := mkExn "NoTranscriptFound" (lit "no transcript").

Definition english_track : Transcript :=
  mkTranscript (lit "English") (lit "en") false (Ok demo_segments).

Definition german_segments : list Segment :=
  [ mkSegment (lit "Drei Saetze Liegestuetze") zero_seconds zero_seconds ].

Definition german_track : Transcript :=
  mkTranscript (lit "Deutsch") (lit "de") false (Ok german_segments).

Definition demo_listing : TranscriptList :=
  mkTranscriptList [english_track] not_found.

Definition completion_with (body : pystr) : ChatCompletion :=
  mkChatCompletion [mkChoice (mkMessage (Some body))].

Definition demo_body : pystr :=
  lit "[{\x22exercise\x22:\x22Push-ups\x22,\x22sets\x22:3,\x22reps\x22:15},{\x22exercise\x22:\x22Squats\x22,\x22sets\x22:4,\x22reps\x22:12}]".

Definition demo_key : pystr := lit "pplx-test-key".


(** A run whose completion content is [body]. *)
Definition world_answering (body : pystr) : World :=
  constant_world (Some demo_key) (Ok demo_listing) (Ok tt)
                 (Ok (completion_with body)).

Definition demo_world : World := world_answering demo_body.

Definition two_track_listing : TranscriptList :=
  mkTranscriptList [german_track; english_track] not_found.

(** A listing in which a track carries [en] as its display name. *)
Definition en_named_track : Transcript :=
  mkTranscript (lit "en") (lit "en") true (Ok demo_segments).

Definition en_named_listing : TranscriptList :=
  mkTranscriptList [german_track; en_named_track] not_found.

Definition en_named_world : World :=
  constant_world (Some demo_key) (Ok en_named_listing) (Ok tt)
                 (Ok (completion_with demo_body)).

(** The provider refuses to list the tracks. *)
Definition transcripts_disabled : exn :=
  mkExn "TranscriptsDisabled" (lit "Subtitles are disabled for this video").

Definition no_listing_world : World :=
  constant_world (Some demo_key) (Raised transcripts_disabled) (Ok tt)
                 (Ok (completion_with demo_body)).

(** The key is configured as the empty string. *)
Definition blank_key_world : World :=
  constant_world (Some []) (Ok demo_listing) (Ok tt)
                 (Ok (completion_with demo_body)).

(** The array of the scenario inside a markdown fence. *)
Definition fenced_body : pystr :=
  lit "```json\n" ++ demo_body ++ lit "\n```".

Definition two_track_world : World :=
  constant_world (Some demo_key) (Ok two_track_listing) (Ok tt)
                 (Ok (completion_with demo_body)).

(** Texts at the limits of the interpreter: a thousand opening brackets;
    an array nested a thousand deep; an integer of 4301 digits; a record
    whose [reps] is that integer. *)
Definition unclosed_brackets : pystr := repeat 91%N 1000.




Definition empty_listing_world : World :=
  constant_world (Some demo_key) (Ok (mkTranscriptList [] not_found)) (Ok tt)
                 (Ok (completion_with demo_body)).

Definition no_key_world : World :=
  constant_world None (Ok demo_listing) (Ok tt) (Ok (completion_with demo_body)).

Definition no_choice_world : World :=
  constant_world (Some demo_key) (Ok demo_listing) (Ok tt)
                 (Ok (mkChatCompletion [])).

Definition connection_error : exn :=
  mkExn "APIConnectionError" (lit "Connection error.").

Definition unreachable_world : World :=
  constant_world (Some demo_key) (Ok demo_listing) (Ok tt)
                 (Raised connection_error).

(** ** The page around the handler

    Lines 10-21, 126-135 and 199-234: the page configuration, the title
    and the two inputs before the handler, the usage notes and the
    sidebar after it.  An exception that leaves the handler ends the run
    of the script: nothing after it is rendered. *)

Inductive widget :=
| SetPageConfig (page_title page_icon layout : pystr)
| Title (body : pystr)
| Write (body : pystr)
| TextInput (label placeholder : pystr)
| Button (label type : pystr)
| Markdown (body : pystr)
| Header (body : pystr)
| Info (body : pystr)
| Code (body : pystr).

Inductive page_item :=
| OnPage (item : widget)
| InSidebar (item : widget)
| FromHandler (ev : event).

(** The emoji of the title and of the page icon, U+1F4AA. *)
Definition flexed_biceps : pystr := [128170%N].

Definition page_top : list page_item :=
  [ OnPage (SetPageConfig (lit "YouTube Workout Extractor") flexed_biceps (lit "wide"));
    OnPage (Title (flexed_biceps ++ lit " YouTube Workout Plan Extractor"));
    OnPage (Write (lit "Enter a YouTube video URL to extract the workout plan from the video's transcript."));
    OnPage (TextInput (lit "YouTube Video URL") (lit "https://www.youtube.com/watch?v=..."));
    OnPage (Button (lit "Extract Workout Plan") (lit "primary")) ].

Definition page_bottom : list page_item :=
  [ OnPage (Markdown (lit "---"));
    OnPage (Markdown (lit "### How to use this app"));
    OnPage (Markdown (lit "\n1. Enter a YouTube URL of a workout video\n2. Click the \x22Extract Workout Plan\x22 button\n3. Review the extracted workout plan\n4. Download the plan as CSV or JSON if needed\n"));
    InSidebar (Header (lit "About"));
    InSidebar (Info (lit "\n    This app extracts workout plans from YouTube videos using AI.\n    \n    It works by:\n    1. Extracting the video transcript\n    2. Analyzing the transcript with Perplexity AI\n    3. Presenting the structured workout plan\n    \n    **Note:** The app requires a Perplexity API key in your .env file.\n    "));
    InSidebar (Header (lit "Requirements"));
    InSidebar (Code (lit "\n    pip install streamlit pytube youtube-transcript-api openai python-dotenv pandas\n    "));
    InSidebar (Header (lit "Setup"));
    InSidebar (Markdown (lit "\n    Create a .env file in the same directory with:\n    ```\n    PERPLEXITY_API_KEY=your_api_key_here\n    ```\n    ")) ].

(** One run of the script with the text [youtube_url] in the input and
    [button] telling whether the action was triggered. *)
Definition script (w : World) (youtube_url : pystr) (button : bool)
  : list page_item * outcome unit :=
  match main w button youtube_url with
  | (t, Return _) => (page_top ++ map FromHandler t ++ page_bottom, Return tt)
  | (t, Raise e) => (page_top ++ map FromHandler t, Raise e)
  end.

(** Requests to the transcript provider. *)
Definition is_listing_call (ev : event) : bool :=
  match ev with CallListTranscripts _ _ => true | _ => false end.

Definition is_fetch_call (ev : event) : bool :=
  match ev with CallFetch _ => true | _ => false end.

Definition is_markdown (ev : event) : bool :=
  match ev with StMarkdown _ _ => true | _ => false end.

Definition is_sidebar (item : page_item) : bool :=
  match item with InSidebar _ => true | _ => false end.

(** ** Texts that cannot start a JSON value

    The characters at which [scan_once] can begin to read a value. *)
Definition starts_json_value (c : char) : bool :=
  (c =? 34)%N || (c =? 123)%N || (c =? 91)%N
  || (c =? 110)%N || (c =? 116)%N || (c =? 102)%N
  || (c =? 78)%N || (c =? 73)%N || (c =? 45)%N || is_digit c.

(** * Properties *)

Unset Implicit Arguments.
Arguments lit : simpl never.

(** ** Strings and dicts *)

Lemma str_eqb_eq (a b : pystr) : str_eqb a b = true <-> a = b.
Proof.
  revert b; induction a as [|x a IH]; intros [|y b]; simpl;
    try (split; [discriminate | congruence]); [tauto|].
  rewrite andb_true_iff, N.eqb_eq, IH. split.
  - intros [-> ->]; reflexivity.
  - intros E; injection E; auto.
Qed.

Lemma str_eqb_refl (a : pystr) : str_eqb a a = true.
Proof. apply str_eqb_eq; reflexivity. Qed.

Lemma str_join_cons (sep x y : pystr) (rest : list pystr) :
  str_join sep (x :: y :: rest) = x ++ sep ++ str_join sep (y :: rest).
Proof. reflexivity. Qed.

(** A spaced concatenation is the same thing as [" ".join]. *)
Lemma str_join_spaced (texts : list pystr) :
  str_join (lit " ") texts = single_space_joined texts.
Proof.
  destruct texts as [|t ts]; [reflexivity|].
  revert t; induction ts as [|u ts IH]; intros t.
  - cbn. symmetry; apply app_nil_r.
  - rewrite str_join_cons, IH. reflexivity.
Qed.

Lemma dict_get_set {V} (k k' : pystr) (v : V) (d : dict V) :
  dict_get k (dict_set k' v d)
  = if str_eqb k k' then Some v
    else dict_get k d.
Proof.
  induction d as [|[k0 v0] d IH]; cbn [dict_set dict_get].
  - destruct (str_eqb k k'); reflexivity.
  - destruct (str_eqb k' k0) eqn:E0; cbn [dict_get].
    + apply str_eqb_eq in E0; subst k0.
      destruct (str_eqb k k'); reflexivity.
    + destruct (str_eqb k k0) eqn:E1.
      * apply str_eqb_eq in E1; subst k0.
        destruct (str_eqb k k') eqn:E2; [|reflexivity].
        apply str_eqb_eq in E2; subst k'. rewrite str_eqb_refl in E0. discriminate.
      * exact IH.
Qed.

(** ** The monad *)

Lemma bind_ret {A B} (a : A) (k : A -> M B) : bind (ret a) k = k a.
Proof. unfold bind, ret. destruct (k a); reflexivity. Qed.

Lemma bind_emit {B} (ev : event) (k : unit -> M B) :
  bind (emit ev) k = (ev :: trace (k tt), result (k tt)).
Proof. unfold bind, emit, trace, result. destruct (k tt); reflexivity. Qed.

Lemma bind_assoc {A B C} (m : M A) (k : A -> M B) (h : B -> M C) :
  bind (bind m k) h = bind m (fun a => bind (k a) h).
Proof.
  destruct m as [t [a|e]]; simpl; try reflexivity.
  destruct (k a) as [t1 [b|e]]; simpl; try reflexivity.
  destruct (h b) as [t2 o]. rewrite app_assoc. reflexivity.
Qed.

Lemma trace_bind_prefix {A B} (m : M A) (k : A -> M B) :
  exists rest, trace (bind m k) = trace m ++ rest.
Proof.
  destruct m as [t [a|e]]; simpl.
  - destruct (k a) as [t' o]. exists t'. reflexivity.
  - exists []. symmetry; apply app_nil_r.
Qed.

Lemma in_trace_bind {A B} (ev : event) (m : M A) (k : A -> M B) :
  In ev (trace (bind m k)) ->
  In ev (trace m) \/ exists a, result m = Return a /\ In ev (trace (k a)).
Proof.
  destruct m as [t [a|e]]; cbn; auto.
  destruct (k a) as [t' o] eqn:E. cbn. intros H.
  apply in_app_or in H as [H|H]; auto.
  right. exists a. rewrite E. auto.
Qed.

(** ** The decoder always decides

    The fuel given by [valid_json] and [json_loads] is never exhausted:
    every refusal is a fault of the text or a limit of the interpreter. *)












Lemma raise_errmsg_cases {A} (d : option nat) :
  @raise_errmsg A d = Malformed
  \/ exists doing, @raise_errmsg A d = Aborted (RecursionError doing).
Proof. destruct d as [[|[|[|n]]]|]; cbn; eauto. Qed.

Lemma raise_errmsg_not_parsed {A} (d : option nat) (v : A) (r : pystr) :
  raise_errmsg d = Parsed v r -> False.
Proof. destruct (@raise_errmsg_cases A d) as [->|[? ->]]; discriminate. Qed.






(** ** The limits of the interpreter

    The limits only ever abort the scanner.  Whatever [json.loads]
    returns is the value of the text, and what it refuses with a
    [JSONDecodeError] is not valid JSON; the other exceptions it raises
    are those of the two limits. *)

Lemma int_refused_no_limit (s : pystr) (v : json) : int_refused 0 s v = None.
Proof.
  destruct v; try reflexivity. unfold int_refused, exceeds_int_max_str_digits.
  destruct (640 <? integer_digits s)%nat; reflexivity.
Qed.






(** A value read inside an array or an object makes it non-empty. *)
Lemma containers_truthy (m : nat) (d : option nat) (fuel : nat) :
  (forall s acc v r, parse_items m d fuel s acc = Parsed v r -> truthy v = true)
  /\ (forall s acc v r,
         parse_pairs m d fuel s acc = Parsed v r -> truthy v = true).
Proof.
  induction fuel as [|fuel (IHi & IHp)]; [split; intros; discriminate|].
  split.
  - intros s acc v r. cbn [parse_items].
    destruct (scan_once m d fuel s) as [v0 r0| |e|]; try discriminate.
    destruct (skip_ws r0) as [|x r1];
      [intros H; destruct (raise_errmsg_not_parsed _ _ _ H)|].
    destruct (x =? 93)%N.
    + intros [= <- <-]. cbn [rev truthy].
      destruct (rev acc); reflexivity.
    + destruct (x =? 44)%N;
        [apply IHi|intros H; destruct (raise_errmsg_not_parsed _ _ _ H)].
  - intros s acc v r. cbn [parse_pairs].
    destruct s as [|q s0];
      [intros H; destruct (raise_errmsg_not_parsed _ _ _ H)|].
    destruct (q =? 34)%N;
      [|intros H; destruct (raise_errmsg_not_parsed _ _ _ H)].
    destruct (scanstring s0) as [[key r1]|];
      [|intros H; destruct (raise_errmsg_not_parsed _ _ _ H)].
    destruct (skip_ws r1) as [|colon r2];
      [intros H; destruct (raise_errmsg_not_parsed _ _ _ H)|].
    destruct (colon =? 58)%N;
      [|intros H; destruct (raise_errmsg_not_parsed _ _ _ H)].
    destruct (scan_once m d fuel (skip_ws r2)) as [v0 r3| |e|];
      try discriminate.
    destruct (skip_ws r3) as [|x r4];
      [intros H; destruct (raise_errmsg_not_parsed _ _ _ H)|].
    destruct (x =? 125)%N.
    + intros [= <- <-]. cbn [truthy].
      destruct acc as [|[k0 x0] acc]; cbn [dict_set]; [reflexivity|].
      destruct (str_eqb key k0); reflexivity.
    + destruct (x =? 44)%N;
        [apply IHp|intros H; destruct (raise_errmsg_not_parsed _ _ _ H)].
Qed.

Lemma digits_value_positive (d : pystr) (acc : N) :
  (0 < acc)%N ->
  (0 < fold_left (fun acc c => (10 * acc + (c - 48))%N) d acc)%N.
Proof.
  revert acc; induction d as [|c d IH]; intros acc Hacc; cbn [fold_left];
    [exact Hacc|].
  apply IH. lia.
Qed.

(** The numeral of the integer zero has one digit. *)
Lemma match_integer_zero (s ds r : pystr) :
  match_integer s = Some (ds, r) -> digits_value ds = 0%N ->
  List.length ds = 1.
Proof.
  unfold match_integer. destruct s as [|c r0]; [discriminate|].
  destruct (c =? 48)%N eqn:H0; [intros [= <- <-]; reflexivity|].
  destruct (is_digit c) eqn:Hd; [|discriminate].
  destruct (take_digits r0) as [d r']. intros [= <- <-] Hz. exfalso.
  unfold digits_value in Hz. cbn [fold_left] in Hz.
  unfold is_digit in Hd. apply andb_true_iff in Hd as [Hlo Hhi].
  apply N.leb_le in Hlo. apply N.eqb_neq in H0.
  pose proof (digits_value_positive d (10 * 0 + (c - 48))%N) as Hp.
  rewrite Hz in Hp. assert (0 < 10 * 0 + (c - 48))%N by lia.
  specialize (Hp H). lia.
Qed.

(** No limit stands in the way of a falsy value: it is a constant, a
    zero, an empty string or an empty container. *)
Lemma int_refused_falsy (m : nat) (s r : pystr) (v : json) :
  match_number s = Some (v, r) -> truthy v = false -> int_refused m s v = None.
Proof.
  destruct v; try reflexivity.
  unfold match_number, int_refused, integer_digits.
  destruct (match_sign s) as [neg s1]. cbn [snd].
  destruct (match_integer s1) as [[ds s2]|] eqn:Hi; [|discriminate].
  destruct (match_fraction s2) as [[f r0]|];
    destruct (match_exponent _) as [[e r1]|]; try discriminate.
  intros [= Hz _] Hv. cbn [truthy] in Hv.
  apply negb_false_iff, Z.eqb_eq in Hv. subst z.
  assert (Hd : digits_value ds = 0%N) by (destruct neg; lia).
  rewrite (match_integer_zero _ _ _ Hi Hd). reflexivity.
Qed.

Lemma scan_once_falsy (m h fuel : nat) (s r : pystr) (v : json) :
  scan_once 0 None (S fuel) s = Parsed v r -> truthy v = false ->
  scan_once m (Some (S h)) (S fuel) s = Parsed v r.
Proof.
  cbn [scan_once enter].
  destruct s as [|c s0]; [discriminate|].
  destruct (c =? 34)%N.
  { destruct (scanstring s0) as [[? ?]|]; [auto|discriminate]. }
  destruct (c =? 123)%N.
  { destruct (skip_ws s0) as [|x r']; [discriminate|].
    destruct (x =? 125)%N; [auto|].
    intros H Hv. apply (proj2 (containers_truthy 0 None fuel)) in H.
    congruence. }
  destruct (c =? 91)%N.
  { destruct (skip_ws s0) as [|x r']; [discriminate|].
    destruct (x =? 93)%N; [auto|].
    intros H Hv. apply (proj1 (containers_truthy 0 None fuel)) in H.
    congruence. }
  repeat match goal with
         | |- context [match strip_prefix ?p ?x with _ => _ end] =>
           destruct (strip_prefix p x); [auto|]
         end.
  destruct (match_number (c :: s0)) as [[v0 rest]|] eqn:E; [|discriminate].
  rewrite int_refused_no_limit. intros [= -> ->] Hv.
  rewrite (int_refused_falsy m _ _ _ E Hv). reflexivity.
Qed.

(** [json.loads] returns every falsy value of a valid text, whatever the
    limits of the interpreter. *)
Lemma json_loads_falsy (h m : nat) (s : pystr) (v : json) :
  valid_json s = Some v -> truthy v = false -> json_loads h m s = Ok v.
Proof.
  unfold valid_json, json_loads.
  destruct (starts_with_bom s); [discriminate|].
  replace (2 * List.length s + 1) with (S (2 * List.length s)) by lia.
  destruct (scan_once 0 None (S (2 * List.length s)) (skip_ws s))
    as [v0 r| |e|] eqn:E; try discriminate.
  destruct (skip_ws r) as [|x r'] eqn:Er; [|discriminate].
  intros [= ->] Hv.
  rewrite (scan_once_falsy m (S h) _ _ _ _ E Hv), Er. reflexivity.
Qed.

(** ** Texts that cannot start a value *)

Lemma strip_prefix_head (p : pystr) (c x : char) (r : pystr) :
  (x =? c)%N = false -> strip_prefix (x :: p) (c :: r) = None.
Proof. intros H. cbn [strip_prefix]. rewrite H. reflexivity. Qed.

Lemma scan_once_cannot_start (m : nat) (d : option nat) (fuel : nat)
      (c : char) (r : pystr) :
  starts_json_value c = false -> scan_once m d (S fuel) (c :: r) = Malformed.
Proof.
  unfold starts_json_value. rewrite !orb_false_iff.
  intros (((((((((Hq & Hb) & Hk) & Hn) & Ht) & Hf) & HN) & HI) & Hm) & Hd).
  cbn [scan_once]. rewrite Hq, Hb, Hk.
  change (lit "null") with (110%N :: lit "ull").
  change (lit "true") with (116%N :: lit "rue").
  change (lit "false") with (102%N :: lit "alse").
  change (lit "NaN") with (78%N :: lit "aN").
  change (lit "Infinity") with (73%N :: lit "nfinity").
  change (lit "-Infinity") with (45%N :: lit "Infinity").
  rewrite !strip_prefix_head by (rewrite N.eqb_sym; assumption).
  unfold match_number, match_sign, match_integer. rewrite Hm.
  unfold is_digit in Hd.
  destruct (c =? 48)%N eqn:H0.
  - apply N.eqb_eq in H0. subst c. discriminate Hd.
  - unfold is_digit. rewrite Hd. reflexivity.
Qed.

(** A text that is empty after its leading white space, or whose first
    character cannot begin a value, is refused with a
    [JSONDecodeError], whatever the limits. *)
Lemma json_loads_cannot_start (h m : nat) (body : pystr) :
  match skip_ws body with
  | c :: _ => starts_json_value c
  | [] => false
  end = false ->
  json_loads h m body = Raised JSONDecodeError.
Proof.
  intros H. unfold json_loads.
  destruct (starts_with_bom body); [reflexivity|].
  replace (2 * List.length body + 1) with (S (2 * List.length body)) by lia.
  destruct (skip_ws body) as [|c r]; [reflexivity|].
  rewrite (scan_once_cannot_start _ _ _ c r H). reflexivity.
Qed.

(** ** The identifier resolver *)

Lemma take_id_length (n : nat) (s i : pystr) :
  take_id n s = Some i -> List.length i = n.
Proof.
  revert s i; induction n as [|n IH]; intros s i; simpl.
  - intros E; injection E as <-; reflexivity.
  - destruct s as [|c r]; [discriminate|].
    destruct (is_id_char c); [|discriminate].
    destruct (take_id n r) as [j|] eqn:E; [|discriminate].
    intros E'; injection E' as <-. simpl. f_equal. eauto.
Qed.

Lemma regex_search_video_id_length (s i : pystr) :
  regex_search_video_id s = Some i -> List.length i = 11.
Proof.
  induction s as [|c r IH]; cbn [regex_search_video_id]; [discriminate|].
  destruct (c =? 47)%N.
  - destruct (take_id 11 r) eqn:E.
    + intros E'; injection E' as <-. eapply take_id_length; eauto.
    + exact IH.
  - destruct (c =? 118)%N; [|exact IH].
    destruct r as [|x r']; [exact IH|].
    destruct (x =? 61)%N; [|exact IH].
    destruct (take_id 11 r') eqn:E; [|exact IH].
    intros E'; injection E' as <-. eapply take_id_length; eauto.
Qed.

Lemma resolved_id_truthy (url vid : pystr) :
  extract_dot_video_id url = Ok vid ->
  str_truthy url = true /\ str_truthy vid = true.
Proof.
  unfold extract_dot_video_id.
  destruct (regex_search_video_id url) as [i|] eqn:E; [|discriminate].
  intros E'; injection E' as <-. split.
  - destruct url; [discriminate E | reflexivity].
  - apply regex_search_video_id_length in E. destruct i; [discriminate E | reflexivity].
Qed.

Lemma extract_video_id_resolved (url vid : pystr) :
  extract_dot_video_id url = Ok vid ->
  extract_video_id url = ret (Some vid).
Proof. unfold extract_video_id. intros ->. reflexivity. Qed.

(** ** The transcript fetcher *)

(** Either a track was fetched, with no message to the user, or the one
    handler reported once and [None] came back. *)
Lemma get_transcript_cases (w : World) (vid : pystr) :
  (exists t segs,
      get_transcript w vid
      = ([CallListTranscripts vid (list_transcripts w vid); CallFetch t],
         Return (Some segs)))
  \/ (exists pre msg,
         get_transcript w vid = (pre ++ [StError msg], Return None)
         /\ forallb is_plain pre = true).
Proof.
  unfold get_transcript.
  destruct (list_transcripts w vid) as [tl|e]; cbn [of_reply].
  2:{ right. eexists [_], _. split; reflexivity. }
  rewrite bind_emit, bind_ret.
  destruct (dict_contains _ _).
  - destruct (find_transcript [lit "en"] tl) as [t|e]; cbn [of_reply].
    2:{ right. eexists [_], _. split; reflexivity. }
    rewrite bind_ret, bind_emit.
    destruct (fetch t) as [segs|e]; cbn [of_reply].
    + left. eexists _, _. reflexivity.
    + right. eexists [_; _], _. split; reflexivity.
  - destruct (tracks tl) as [|t ts]; cbn [index0].
    { right. eexists [_], _. split; reflexivity. }
    rewrite bind_ret, bind_emit.
    destruct (fetch t) as [segs|e]; cbn [of_reply].
    + left. eexists _, _. reflexivity.
    + right. eexists [_; _], _. split; reflexivity.
Qed.

Lemma get_transcript_starts (w : World) (vid : pystr) :
  exists rest o,
    get_transcript w vid
    = (CallListTranscripts vid (list_transcripts w vid) :: rest, o).
Proof.
  destruct (get_transcript_cases w vid) as [(t & segs & E)|(p & msg & E & Hp)].
  - rewrite E. eauto.
  - revert E. unfold get_transcript.
    rewrite bind_emit. cbn [try_except].
    destruct (result _) as [a|e]; cbn; eauto.
Qed.

(** The membership test of [get_transcript] looks at display names. *)
Lemma available_transcripts_contains (k : pystr) (ts : list Transcript)
      (d : dict (pystr * bool)) :
  dict_contains k
    (fold_left (fun d t => dict_set (language t) (language t, is_generated t) d)
               ts d)
  = dict_contains k d || existsb (fun t => str_eqb k (language t)) ts.
Proof.
  revert d; induction ts as [|t ts IH]; intros d; cbn [fold_left existsb].
  - rewrite orb_false_r. reflexivity.
  - rewrite IH. unfold dict_contains at 1. rewrite dict_get_set.
    unfold dict_contains.
    destruct (str_eqb k (language t)); cbn.
    + rewrite orb_true_r. reflexivity.
    + destruct (dict_get k d); reflexivity.
Qed.

(** Whenever no track carries the display name [en], the first track of
    the enumeration is fetched, whatever the language codes are. *)
Lemma get_transcript_without_en_name (w : World) (vid : pystr)
      (tl : TranscriptList) (t : Transcript) (ts : list Transcript)
      (segs : list Segment) :
  list_transcripts w vid = Ok tl ->
  tracks tl = t :: ts ->
  existsb (fun t => str_eqb (lit "en") (language t)) (tracks tl) = false ->
  fetch t = Ok segs ->
  get_transcript w vid
  = ([CallListTranscripts vid (Ok tl); CallFetch t], Return (Some segs)).
Proof.
  intros Hl Ht Hen Hf. unfold get_transcript.
  rewrite Hl. cbn [of_reply]. rewrite bind_emit, bind_ret.
  rewrite available_transcripts_contains, Hen, Ht. cbn. rewrite Hf.
  reflexivity.
Qed.

(** ** The extraction client *)

Lemma extract_without_key (w : World) (e0 : Segment) (es : list Segment) :
  (PERPLEXITY_API_KEY w = None \/ PERPLEXITY_API_KEY w = Some []) ->
  extract_workout_perplexity w (Some (e0 :: es))
  = ([StError (lit "Perplexity API key is missing. Please add it to your .env file.")],
     Return JNull).
Proof. unfold extract_workout_perplexity. intros [-> | ->]; reflexivity. Qed.

Lemma extract_with_key (w : World) (e0 : Segment) (es : list Segment)
      (key : pystr) :
  PERPLEXITY_API_KEY w = Some key -> str_truthy key = true ->
  let base_url := lit "https://api.perplexity.ai" in
  let messages :=
    build_messages
      (prompt_head ++ str_join (lit " ") (map text (e0 :: es)) ++ prompt_tail) in
  let answer := chat_completions_create w (lit "sonar") messages in
  extract_workout_perplexity w (Some (e0 :: es))
  = match OpenAI w key base_url with
    | Raised e =>
      ([CallOpenAI key base_url (Raised e);
        StError (lit "Failed to connect to Perplexity API: " ++ exn_str e)],
       Return JNull)
    | Ok u =>
      match answer with
      | Raised e =>
        ([CallOpenAI key base_url (Ok u);
          StSpinner (lit "Analyzing workout content...");
          CallCompletionsCreate (lit "sonar") messages (Raised e);
          StError (lit "Failed to connect to Perplexity API: " ++ exn_str e)],
         Return JNull)
      | Ok response =>
        ([CallOpenAI key base_url (Ok u);
          StSpinner (lit "Analyzing workout content...");
          CallCompletionsCreate (lit "sonar") messages (Ok response)],
         Return tt) ;; read_completion w response
      end
    end.
Proof.
  intros Hkey Htruthy. unfold extract_workout_perplexity.
  rewrite Hkey, Htruthy. cbn [negb].
  destruct (OpenAI w key _) as [u|e]; [|reflexivity].
  destruct (chat_completions_create w _ _) as [response|e]; [|reflexivity].
  cbn. destruct (read_completion w response). reflexivity.
Qed.

(** Reading an answer that has a choice with content: the value comes
    back as decoded, a [JSONDecodeError] is reported, and any other
    exception of [json.loads] leaves the function. *)
Lemma read_completion_content (w : World) (response : ChatCompletion)
      (choice : Choice) (others : list Choice) (body : pystr) :
  choices response = choice :: others ->
  content (message choice) = Some body ->
  read_completion w response
  = match json_loads_in w body with
    | Ok v => ret v
    | Raised e =>
      if except_JSONDecodeError e
      then ([StError (lit "Failed to parse Perplexity response as JSON.")],
            Return JNull)
      else ([], Raise e)
    end.
Proof.
  intros Hc Hb. unfold read_completion. rewrite Hc. cbn [index0].
  rewrite bind_ret, Hb. unfold loads.
  destruct (json_loads_in w body) as [v|e]; [reflexivity|].
  cbn [of_reply raise try_except]. destruct (except_JSONDecodeError e); reflexivity.
Qed.

Lemma read_completion_only_errors (w : World) (response : ChatCompletion)
      (ev : event) :
  In ev (trace (read_completion w response)) -> is_error ev = true.
Proof.
  unfold read_completion.
  destruct (choices response) as [|c cs]; cbn [index0]; [intros []|].
  rewrite bind_ret. unfold loads.
  destruct (content (message c)) as [body|]; [|intros []].
  destruct (json_loads_in w body) as [v|e]; cbn; [intros []|].
  destruct (except_JSONDecodeError e); cbn; [|intros []].
  intros [<-|[]]; reflexivity.
Qed.

Lemma read_completion_no_completion (w : World) (response : ChatCompletion)
      (ev : event) :
  In ev (trace (read_completion w response)) -> is_completion_call ev = false.
Proof.
  intros H. apply read_completion_only_errors in H.
  destruct ev; try discriminate H. reflexivity.
Qed.

(** The five ways [extract_workout_perplexity] can go. *)
Lemma extract_cases (w : World) (transcript : option (list Segment)) :
  let base_url := lit "https://api.perplexity.ai" in
  extract_workout_perplexity w transcript
  = ([StWarning (lit "No transcript available for this video.")], Return JNull)
  \/ extract_workout_perplexity w transcript
     = ([StError (lit "Perplexity API key is missing. Please add it to your .env file.")],
        Return JNull)
  \/ (exists key e,
         extract_workout_perplexity w transcript
         = ([CallOpenAI key base_url (Raised e);
             StError (lit "Failed to connect to Perplexity API: " ++ exn_str e)],
            Return JNull))
  \/ (exists key u messages e,
         extract_workout_perplexity w transcript
         = ([CallOpenAI key base_url (Ok u);
             StSpinner (lit "Analyzing workout content...");
             CallCompletionsCreate (lit "sonar") messages (Raised e);
             StError (lit "Failed to connect to Perplexity API: " ++ exn_str e)],
            Return JNull))
  \/ (exists key u messages response,
         extract_workout_perplexity w transcript
         = (([CallOpenAI key base_url (Ok u);
              StSpinner (lit "Analyzing workout content...");
              CallCompletionsCreate (lit "sonar") messages (Ok response)],
             Return tt) ;; read_completion w response)).
Proof.
  intros base_url.
  destruct transcript as [[|e0 es]|]; [left; reflexivity| |left; reflexivity].
  destruct (PERPLEXITY_API_KEY w) as [key|] eqn:Hkey.
  2:{ right; left. apply extract_without_key; auto. }
  destruct (str_truthy key) eqn:Htruthy.
  2:{ right; left. apply extract_without_key. destruct key; [auto|discriminate]. }
  rewrite (extract_with_key w e0 es key Hkey Htruthy). fold base_url.
  destruct (OpenAI w key base_url) as [u|e].
  2:{ right; right; left. eauto. }
  destruct (chat_completions_create w _ _) as [r|e].
  - do 4 right. eauto.
  - do 3 right; left. eauto 6.
Qed.


(** ** The button handler *)

Lemma plain_in (pre : list event) (ev : event) :
  forallb is_plain pre = true -> In ev pre -> is_plain ev = true.
Proof. intros H Hin. rewrite forallb_forall in H. auto. Qed.

Lemma plain_filters (pre : list event) :
  forallb is_plain pre = true ->
  filter is_error pre = [] /\ filter is_warning pre = []
  /\ filter is_download pre = [] /\ filter is_render pre = []
  /\ filter is_completion_call pre = [].
Proof.
  induction pre as [|ev pre IH]; cbn [forallb filter]; [auto|].
  rewrite andb_true_iff. intros [Hev Hpre].
  destruct (IH Hpre) as (-> & -> & -> & -> & ->).
  unfold is_plain in Hev. rewrite negb_true_iff, !orb_false_iff in Hev.
  destruct Hev as ((((-> & ->) & ->) & ->) & ->). auto.
Qed.

Lemma present_falsy (w : World) (v : json) :
  truthy v = false ->
  present w v
  = ([StWarning (lit "Could not extract workout plan from this video.")],
     Return tt).
Proof. unfold present. intros ->. reflexivity. Qed.

(** The presentation of a truthy value, by the answer of the
    constructor. *)
Lemma present_truthy_eq (w : World) (v : json) :
  truthy v = true ->
  present w v
  = match pd_DataFrame (DataFrame_elsewhere w) v with
    | Raised e =>
      ([StSubheader (lit "Extracted Workout Plan"); CallDataFrame v], Raise e)
    | Ok df =>
      match st_dataframe (st_dataframe_elsewhere w) df with
      | Raised e =>
        ([StSubheader (lit "Extracted Workout Plan"); CallDataFrame v],
         Raise e)
      | Ok _ =>
        ([StSubheader (lit "Extracted Workout Plan"); CallDataFrame v;
          StDataframe df
            [(lit "exercise", lit "Exercise"); (lit "sets", lit "Sets");
             (lit "reps", lit "Reps")] true true;
          StColumns 2;
          StDownloadButton (lit "Download CSV") (to_csv df)
            (lit "workout_plan.csv") (lit "text/csv");
          StDownloadButton (lit "Download JSON")
            (json_dumps_indent2 (float_repr w) v)
            (lit "workout_plan.json") (lit "application/json")],
         Return tt)
      end
    end.
Proof.
  unfold present. intros ->. rewrite !bind_emit.
  destruct (pd_DataFrame (DataFrame_elsewhere w) v) as [df|e];
    [|reflexivity].
  cbn [of_reply]. rewrite bind_ret.
  destruct (st_dataframe (st_dataframe_elsewhere w) df) as [u|e]; reflexivity.
Qed.


Lemma present_no_completion (w : World) (v : json) (ev : event) :
  In ev (trace (present w v)) -> is_completion_call ev = false.
Proof.
  destruct (truthy v) eqn:Hv.
  - rewrite (present_truthy_eq w v Hv).
    destruct (pd_DataFrame (DataFrame_elsewhere w) v) as [df|e];
      [destruct (st_dataframe (st_dataframe_elsewhere w) df) as [u|e]|];
      cbn [trace fst]; intros H;
      repeat (destruct H as [<-|H]; [reflexivity|]); destruct H.
  - rewrite (present_falsy w v Hv). cbn. intros [<-|[]]; reflexivity.
Qed.

Ltac absurd_in H :=
  cbn in H; repeat (destruct H as [H|H]; [discriminate H|]); destruct H.

(** A run either got a response from the completion endpoint, after a
    plain prefix, and goes on to read and present it; or no request to
    the endpoint was answered. *)
Lemma main_shape (w : World) (button : bool) (url : pystr) :
  (exists pre messages response,
      forallb is_plain pre = true /\
      main w button url
      = ((pre ++ [StSpinner (lit "Analyzing workout content...");
                  CallCompletionsCreate (lit "sonar") messages (Ok response)],
          Return tt) ;;
         workout_data <- read_completion w response ;;
         present w workout_data))
  \/ (forall model messages response,
         ~ In (CallCompletionsCreate model messages (Ok response))
              (trace (main w button url))).
Proof.
  unfold main. destruct button; [|right; intros ? ? ? []].
  destruct (str_truthy url); [|right; intros ? ? ? H; absurd_in H].
  unfold extract_video_id.
  destruct (extract_dot_video_id url) as [vid|e];
    [|right; intros ? ? ? H; absurd_in H].
  cbn [of_reply]. rewrite !bind_ret. cbn [try_except ret]. rewrite bind_ret.
  destruct (str_truthy vid); [|right; intros ? ? ? []].
  rewrite !bind_emit.
  destruct (get_transcript_cases w vid) as [(t & segs & E)|(p & msg & E & Hp)];
    rewrite E; clear E.
  - destruct segs as [|e0 es]; [right; intros ? ? ? H; absurd_in H|].
    cbn [bind app].
    destruct (PERPLEXITY_API_KEY w) as [key|] eqn:Hkey.
    2:{ rewrite extract_without_key by auto. right; intros ? ? ? H; absurd_in H. }
    destruct (str_truthy key) eqn:Htruthy.
    2:{ rewrite extract_without_key by (destruct key; [auto|discriminate]).
        right; intros ? ? ? H; absurd_in H. }
    rewrite (extract_with_key w e0 es key Hkey Htruthy).
    destruct (OpenAI w key _) as [u|e]; [|right; intros ? ? ? H; absurd_in H].
    destruct (chat_completions_create w _ _) as [r|e];
      [|right; intros ? ? ? H; absurd_in H].
    left. eexists [_; _; _; _; _; _], _, r. split; cycle 1.
    { rewrite bind_assoc.
      destruct (read_completion w r ;; _) as [t' o] eqn:E'.
      cbn. reflexivity. }
    reflexivity.
  - right. intros model messages response H. cbn in H.
    destruct H as [H|[H|[H|H]]]; try discriminate H.
    rewrite <- app_assoc in H. apply in_app_or in H as [H|H].
    + apply (plain_in _ _ Hp) in H. discriminate H.
    + absurd_in H.
Qed.

Lemma main_after_completion (w : World) (button : bool) (url model : pystr)
      (messages : list (dict pystr)) (response : ChatCompletion) :
  In (CallCompletionsCreate model messages (Ok response))
     (trace (main w button url)) ->
  exists pre,
    forallb is_plain pre = true /\
    main w button url
    = ((pre ++ [CallCompletionsCreate model messages (Ok response)], Return tt) ;;
       workout_data <- read_completion w response ;; present w workout_data).
Proof.
  intros H.
  destruct (main_shape w button url) as [(pre & msgs & r & Hpre & E)|Hno];
    [|destruct (Hno _ _ _ H)].
  rewrite E in H |- *.
  apply in_trace_bind in H as [H|(a & _ & H)].
  - cbn [trace fst] in H. apply in_app_or in H as [H|H].
    + apply (plain_in _ _ Hpre) in H. discriminate H.
    + destruct H as [H|[H|[]]]; [discriminate H|].
      injection H as -> -> ->.
      exists (pre ++ [StSpinner (lit "Analyzing workout content...")]). split.
      * rewrite forallb_app, Hpre. reflexivity.
      * rewrite <- app_assoc. reflexivity.
  - apply in_trace_bind in H as [H|(v & _ & H)].
    + apply read_completion_no_completion in H. discriminate H.
    + apply present_no_completion in H. discriminate H.
Qed.

(** ** Export of exercise records *)


















(** * The claims *)

(** C1 (defect in the code).  The listing enumerates a German track and
    then an English one (code [en], display name [English]).  The claim
    asks for the English track; [get_transcript] fetches and returns the
    German one, because its membership test looks for [en] among the
    display names. *)
Theorem get_transcript_misses_english :
  In english_track (tracks two_track_listing)
  /\ language_code english_track = lit "en"
  /\ fetch english_track = Ok demo_segments
  /\ get_transcript two_track_world demo_id
     = ([CallListTranscripts demo_id (Ok two_track_listing);
         CallFetch german_track],
        Return (Some german_segments))
  /\ german_segments <> demo_segments.
Proof.
  split; [right; left; reflexivity|].
  split; [reflexivity|]. split; [reflexivity|].
  split; [vm_compute; reflexivity|discriminate].
Qed.



(** C2 as stated fails: a thousand opening brackets are not valid JSON,
    yet under the default recursion limit [json.loads] ends with a
    [RecursionError] before it reaches the end of the text.  The handler
    of line 109 does not catch it: the run shows no error message at all
    and the exception leaves the run. *)
Lemma deep_invalid_json_escapes_handler :
  valid_json unclosed_brackets = None
  /\ In (CallCompletionsCreate (lit "sonar")
           (build_messages
              (prompt_head ++ str_join (lit " ") (map text demo_segments)
                           ++ prompt_tail))
           (Ok (completion_with unclosed_brackets)))
        (trace (main (world_answering unclosed_brackets) true demo_url))
  /\ filter is_error
       (trace (main (world_answering unclosed_brackets) true demo_url)) = []
  /\ result (main (world_answering unclosed_brackets) true demo_url)
     = Raise (RecursionError (while_decoding (lit "array"))).
Proof.
  split; [vm_compute; reflexivity|].
  split; [vm_compute; do 7 right; left; reflexivity|].
  split; vm_compute; reflexivity.
Qed.

(** C3 (as amended).  Every exception raised by the construction of the
    client or by the completion call itself is caught by
    [extract_workout_perplexity]: the function reports once, with the
    generic connection message, returns [None], and does not ask again. *)
Theorem provider_exception_caught :
  forall (w : World) (transcript : option (list Segment)) (e : exn),
    ((exists key base_url,
         In (CallOpenAI key base_url (Raised e))
            (trace (extract_workout_perplexity w transcript)))
     \/ (exists model messages,
            In (CallCompletionsCreate model messages (Raised e))
               (trace (extract_workout_perplexity w transcript)))) ->
    result (extract_workout_perplexity w transcript) = Return JNull
    /\ filter is_error (trace (extract_workout_perplexity w transcript))
       = [StError (lit "Failed to connect to Perplexity API: " ++ exn_str e)]
    /\ List.length (filter is_completion_call
                      (trace (extract_workout_perplexity w transcript))) <= 1.
Proof.
  intros w transcript e H.
  destruct (extract_cases w transcript)
    as [E|[E|[(key & e' & E)|[(key & u & msgs & e' & E)|(key & u & msgs & r & E)]]]];
    rewrite E in H |- *.
  - destruct H as [(? & ? & H)|(? & ? & H)]; absurd_in H.
  - destruct H as [(? & ? & H)|(? & ? & H)]; absurd_in H.
  - destruct H as [(? & ? & H)|(? & ? & H)]; [|absurd_in H].
    destruct H as [H|H]; [|absurd_in H]. injection H as _ _ <-.
    cbn. auto.
  - destruct H as [(? & ? & H)|(? & ? & H)]; [absurd_in H|].
    destruct H as [H|[H|[H|H]]]; try discriminate H; [|absurd_in H].
    injection H as _ _ <-. cbn. auto.
  - exfalso.
    assert (G : forall ev, is_error ev = false ->
                In ev (trace (([CallOpenAI key (lit "https://api.perplexity.ai") (Ok u);
                                StSpinner (lit "Analyzing workout content...");
                                CallCompletionsCreate (lit "sonar") msgs (Ok r)],
                               Return tt) ;; read_completion w r)) ->
                ev = CallOpenAI key (lit "https://api.perplexity.ai") (Ok u)
                \/ ev = StSpinner (lit "Analyzing workout content...")
                \/ ev = CallCompletionsCreate (lit "sonar") msgs (Ok r)).
    { intros ev Hev Hin. apply in_trace_bind in Hin as [Hin|(a & _ & Hin)].
      - cbn in Hin. intuition auto.
      - apply read_completion_only_errors in Hin. congruence. }
    destruct H as [(? & ? & H)|(? & ? & H)];
      apply G in H; try reflexivity;
      destruct H as [H|[H|H]]; discriminate H.
Qed.

Lemma provider_exception_caught_witness :
  In (CallCompletionsCreate (lit "sonar")
        (build_messages
           (prompt_head ++ str_join (lit " ") (map text demo_segments) ++ prompt_tail))
        (Raised connection_error))
     (trace (extract_workout_perplexity unreachable_world (Some demo_segments)))
  /\ result (extract_workout_perplexity unreachable_world (Some demo_segments))
     = Return JNull.
Proof.
  assert (H : In (CallCompletionsCreate (lit "sonar")
                    (build_messages
                       (prompt_head ++ str_join (lit " ") (map text demo_segments)
                                    ++ prompt_tail))
                    (Raised connection_error))
                 (trace (extract_workout_perplexity unreachable_world
                           (Some demo_segments)))).
  { right; right; left. reflexivity. }
  split; [exact H|].
  refine (proj1 (provider_exception_caught unreachable_world
                   (Some demo_segments) connection_error _)).
  right. eexists _, _. exact H.
Defined.

(** C3 as stated fails: a response without any choice makes
    [response.choices[0]] raise [IndexError] after the [try] block; the
    exception leaves [extract_workout_perplexity] and the whole run, and
    no message is shown for it.  The same holds for a choice without
    content, where [json.loads] raises [TypeError]. *)
Lemma exception_after_try_propagates :
  result (extract_workout_perplexity no_choice_world (Some demo_segments))
  = Raise IndexError
  /\ result (extract_workout_perplexity no_choice_world (Some demo_segments))
     <> Return JNull
  /\ filter is_error
       (trace (extract_workout_perplexity no_choice_world (Some demo_segments)))
     = []
  /\ result (main no_choice_world true demo_url) = Raise IndexError
  /\ result (extract_workout_perplexity
               (constant_world (Some demo_key) (Ok demo_listing) (Ok tt)
                  (Ok (mkChatCompletion [mkChoice (mkMessage None)])))
               (Some demo_segments))
     = Raise TypeError_loads_None.
Proof.
  split; [vm_compute; reflexivity|].
  split; [vm_compute; discriminate|].
  split; [vm_compute; reflexivity|].
  split; vm_compute; reflexivity.
Qed.

(** C4.  When the listing of a video has no track, [get_transcript]
    reports once and returns [None]; a run for a URL resolving to that
    video ends after the warning, and its trace holds neither a client
    construction nor a request to the completion endpoint. *)
Theorem no_tracks_no_completion :
  forall (w : World) (vid : pystr) (tl : TranscriptList),
    list_transcripts w vid = Ok tl ->
    tracks tl = [] ->
    get_transcript w vid
    = ([CallListTranscripts vid (Ok tl);
        StError (lit "Error getting transcript: " ++ lit "list index out of range")],
       Return None)
    /\ forall url : pystr,
        extract_dot_video_id url = Ok vid ->
        main w true url
        = ([StSubheader (lit "Video");
            StMarkdown (embed_youtube_video vid) true;
            StSpinner (lit "Getting video transcript...");
            CallListTranscripts vid (Ok tl);
            StError (lit "Error getting transcript: " ++ lit "list index out of range");
            StWarning (lit "No transcript available for this video.")],
           Return tt)
        /\ filter is_completion_call (trace (main w true url)) = []
        /\ filter is_client_call (trace (main w true url)) = [].
Proof.
  intros w vid tl Hl Ht.
  assert (G : get_transcript w vid
              = ([CallListTranscripts vid (Ok tl);
                  StError (lit "Error getting transcript: " ++ lit "list index out of range")],
                 Return None)).
  { unfold get_transcript. rewrite Hl. cbn [of_reply].
    rewrite bind_emit, bind_ret, Ht. reflexivity. }
  split; [exact G|].
  intros url Hurl.
  assert (E : main w true url
              = ([StSubheader (lit "Video");
                  StMarkdown (embed_youtube_video vid) true;
                  StSpinner (lit "Getting video transcript...");
                  CallListTranscripts vid (Ok tl);
                  StError (lit "Error getting transcript: " ++ lit "list index out of range");
                  StWarning (lit "No transcript available for this video.")],
                 Return tt)).
  { unfold main. destruct (resolved_id_truthy _ _ Hurl) as [-> Hvid].
    rewrite (extract_video_id_resolved _ _ Hurl), bind_ret, Hvid, !bind_emit, G.
    reflexivity. }
  rewrite E. repeat split.
Qed.

Lemma no_tracks_no_completion_witness :
  list_transcripts empty_listing_world demo_id = Ok (mkTranscriptList [] not_found)
  /\ tracks (mkTranscriptList [] not_found) = []
  /\ extract_dot_video_id demo_url = Ok demo_id
  /\ filter is_completion_call (trace (main empty_listing_world true demo_url)) = [].
Proof.
  split; [reflexivity|]. split; [reflexivity|]. split; [reflexivity|].
  destruct (no_tracks_no_completion empty_listing_world demo_id
              (mkTranscriptList [] not_found) eq_refl eq_refl) as [_ H].
  destruct (H demo_url eq_refl) as (_ & H1 & _). exact H1.
Defined.

(** C5.  With a non-empty transcript and no configured key,
    [extract_workout_perplexity] reports the missing key and returns
    [None]; nothing else happens: no client is constructed and no request
    is issued. *)
Theorem missing_key_hard_stop :
  forall (w : World) (transcript : list Segment),
    transcript <> [] ->
    PERPLEXITY_API_KEY w = None ->
    extract_workout_perplexity w (Some transcript)
    = ([StError (lit "Perplexity API key is missing. Please add it to your .env file.")],
       Return JNull)
    /\ filter is_client_call (trace (extract_workout_perplexity w (Some transcript))) = []
    /\ filter is_completion_call (trace (extract_workout_perplexity w (Some transcript))) = [].
Proof.
  intros w [|e0 es] Hne Hkey; [congruence|].
  rewrite extract_without_key by auto. repeat split.
Qed.

Lemma missing_key_hard_stop_witness :
  demo_segments <> []
  /\ PERPLEXITY_API_KEY no_key_world = None
  /\ extract_workout_perplexity no_key_world (Some demo_segments)
     = ([StError (lit "Perplexity API key is missing. Please add it to your .env file.")],
        Return JNull).
Proof.
  assert (Hne : demo_segments <> []) by discriminate.
  split; [exact Hne|]. split; [reflexivity|].
  exact (proj1 (missing_key_hard_stop no_key_world demo_segments Hne eq_refl)).
Defined.




(** C7.  For a non-empty transcript, once the key is configured and the
    client is built, the request sent to the completion endpoint carries
    the system message and a user message whose content is the prompt
    template around the segment texts, in order, separated by single
    spaces. *)
Theorem prompt_embeds_joined_transcript :
  forall (w : World) (transcript : list Segment) (key : pystr),
    transcript <> [] ->
    PERPLEXITY_API_KEY w = Some key ->
    key <> [] ->
    OpenAI w key (lit "https://api.perplexity.ai") = Ok tt ->
    exists answer rest,
      trace (extract_workout_perplexity w (Some transcript))
      = CallOpenAI key (lit "https://api.perplexity.ai") (Ok tt)
        :: StSpinner (lit "Analyzing workout content...")
        :: CallCompletionsCreate (lit "sonar")
             [ [(lit "role", lit "system"); (lit "content", system_content)];
               [(lit "role", lit "user");
                (lit "content",
                 prompt_head ++ single_space_joined (map text transcript)
                             ++ prompt_tail)] ]
             answer
        :: rest.
Proof.
  intros w [|e0 es] key Hne Hkey Hk Hclient; [congruence|].
  assert (Htruthy : str_truthy key = true) by (destruct key; [congruence|reflexivity]).
  rewrite (extract_with_key w e0 es key Hkey Htruthy), Hclient, str_join_spaced.
  unfold build_messages.
  destruct (chat_completions_create w _ _) as [r|e].
  - destruct (read_completion w r) as [t o]. cbn. eauto.
  - cbn. eauto.
Qed.

Lemma prompt_embeds_joined_transcript_witness :
  exists answer rest,
    trace (extract_workout_perplexity demo_world (Some demo_segments))
    = CallOpenAI demo_key (lit "https://api.perplexity.ai") (Ok tt)
      :: StSpinner (lit "Analyzing workout content...")
      :: CallCompletionsCreate (lit "sonar")
           [ [(lit "role", lit "system"); (lit "content", system_content)];
             [(lit "role", lit "user");
              (lit "content",
               prompt_head
                 ++ lit "Do three sets of push-ups, fifteen reps each then four sets of squats, twelve reps"
                 ++ prompt_tail)] ]
           answer
      :: rest.
Proof.
  apply (prompt_embeds_joined_transcript demo_world demo_segments demo_key).
  - discriminate.
  - reflexivity.
  - discriminate.
  - reflexivity.
Defined.

(** C8.  Whenever the completion endpoint answered a run with a body that
    is valid JSON but falsy (an empty array, [null], [false], zero, an
    empty string or object), the run shows the one warning that no plan
    could be extracted, no error, and offers no download. *)
Theorem falsy_result_warns :
  forall (w : World) (button : bool) (url model : pystr)
         (messages : list (dict pystr)) (response : ChatCompletion)
         (choice : Choice) (others : list Choice) (body : pystr) (v : json),
    In (CallCompletionsCreate model messages (Ok response))
       (trace (main w button url)) ->
    choices response = choice :: others ->
    content (message choice) = Some body ->
    valid_json body = Some v ->
    truthy v = false ->
    filter is_warning (trace (main w button url))
    = [StWarning (lit "Could not extract workout plan from this video.")]
    /\ filter is_error (trace (main w button url)) = []
    /\ filter is_download (trace (main w button url)) = []
    /\ result (main w button url) = Return tt.
Proof.
  intros w button url model messages response choice others body v
         Hin Hc Hb Hj Hv.
  destruct (main_after_completion _ _ _ _ _ _ Hin) as (pre & Hpre & E).
  rewrite E, (read_completion_content _ _ _ _ _ Hc Hb).
  unfold json_loads_in. rewrite (json_loads_falsy _ _ _ _ Hj Hv).
  destruct (plain_filters _ Hpre) as (He & Hw & Hd & _ & _).
  rewrite bind_ret, (present_falsy w v Hv).
  cbn. rewrite !filter_app, He, Hw, Hd. cbn. auto.
Qed.

Lemma falsy_result_warns_witness :
  valid_json (lit "[]") = Some (JList [])
  /\ truthy (JList []) = false
  /\ filter is_warning (trace (main (world_answering (lit "[]")) true demo_url))
     = [StWarning (lit "Could not extract workout plan from this video.")].
Proof.
  split; [vm_compute; reflexivity|]. split; [reflexivity|].
  refine (proj1 (falsy_result_warns
                   (world_answering (lit "[]")) true demo_url (lit "sonar")
                   (build_messages
                      (prompt_head ++ str_join (lit " ") (map text demo_segments)
                                   ++ prompt_tail))
                   (completion_with (lit "[]"))
                   _ _ _ (JList []) _ eq_refl eq_refl _ eq_refl)).
  - vm_compute. do 7 right. left. reflexivity.
  - vm_compute. reflexivity.
Defined.

(** C9.  For every URL that resolves to an identifier, a run renders the
    player markup for that identifier before it asks the transcript
    provider anything, whatever the provider and the completion endpoint
    answer later; the markup holds an iframe whose source is the embed
    address of the identifier. *)
Theorem embed_rendered_before_fetch :
  forall (w : World) (url vid : pystr),
    extract_dot_video_id url = Ok vid ->
    (exists rest,
        trace (main w true url)
        = StSubheader (lit "Video")
          :: StMarkdown (embed_youtube_video vid) true
          :: StSpinner (lit "Getting video transcript...")
          :: CallListTranscripts vid (list_transcripts w vid)
          :: rest)
    /\ exists before after,
        embed_youtube_video vid
        = before ++ lit "<iframe src=\x22https://www.youtube.com/embed/"
                 ++ vid ++ lit "\x22" ++ after.
Proof.
  intros w url vid Hurl. split.
  - unfold main. destruct (resolved_id_truthy _ _ Hurl) as [-> Hvid].
    rewrite (extract_video_id_resolved _ _ Hurl), bind_ret, Hvid, !bind_emit.
    destruct (get_transcript_starts w vid) as (rest & o & ->).
    cbn [trace fst].
    match goal with |- context [bind ?m ?k] =>
      destruct (trace_bind_prefix m k) as [r E] end.
    rewrite E. cbn. eauto.
  - unfold embed_youtube_video.
    exists (lit "\n    <div style=\x22position: relative; padding-bottom: 56.25%; height: 0; overflow: hidden; max-width: 100%; border-radius: 10px;\x22>\n        ").
    exists (lit " \n            style=\x22position: absolute; top: 0; left: 0; width: 100%; height: 100%; border: 0;\x22 \n            allowfullscreen>\n        </iframe>\n    </div>\n    ").
    match goal with |- ?a ++ vid ++ ?b = ?x ++ ?i ++ vid ++ ?q ++ ?y =>
      transitivity ((x ++ i) ++ vid ++ (q ++ y));
        [|rewrite <- !app_assoc; reflexivity];
      apply (f_equal2 (@app char)); [|apply (f_equal (@app char vid))]
    end; vm_compute; reflexivity.
Qed.

Lemma embed_rendered_before_fetch_witness :
  extract_dot_video_id demo_url = Ok demo_id
  /\ exists rest,
      trace (main unreachable_world true demo_url)
      = StSubheader (lit "Video")
        :: StMarkdown (embed_youtube_video demo_id) true
        :: StSpinner (lit "Getting video transcript...")
        :: CallListTranscripts demo_id (Ok demo_listing)
        :: rest.
Proof.
  split; [reflexivity|].
  exact (proj1 (embed_rendered_before_fetch unreachable_world demo_url
                  demo_id eq_refl)).
Defined.




(** * Further properties of the code *)

Arguments json_loads_in : simpl never.
Arguments valid_json : simpl never.
Arguments except_JSONDecodeError : simpl never.
Arguments pd_DataFrame : simpl never.
Arguments st_dataframe : simpl never.
Arguments to_csv : simpl never.
Arguments json_dumps_indent2 : simpl never.
Arguments embed_youtube_video : simpl never.
Arguments str_join : simpl never.
Arguments truthy : simpl never.
Arguments build_messages : simpl never.
Arguments find_transcript : simpl never.

(** ** Every way a run can go *)

(** [get_transcript], branch by branch. *)
Lemma get_transcript_eq (w : World) (vid : pystr) :
  let listed := CallListTranscripts vid (list_transcripts w vid) in
  let failed e := StError (lit "Error getting transcript: " ++ exn_str e) in
  let fetched t :=
    match fetch t with
    | Ok segs => ([listed; CallFetch t], Return (Some segs))
    | Raised e => ([listed; CallFetch t; failed e], Return None)
    end in
  get_transcript w vid
  = match list_transcripts w vid with
    | Raised e => ([listed; failed e], Return None)
    | Ok tl =>
      if existsb (fun t => str_eqb (lit "en") (language t)) (tracks tl) then
        match find_transcript [lit "en"] tl with
        | Ok t => fetched t
        | Raised e => ([listed; failed e], Return None)
        end
      else
        match tracks tl with
        | t :: _ => fetched t
        | [] => ([listed; failed IndexError], Return None)
        end
    end.
Proof.
  intros listed failed fetched. subst listed failed fetched.
  unfold get_transcript.
  destruct (list_transcripts w vid) as [tl|e]; cbn [of_reply]; [|reflexivity].
  rewrite bind_emit, bind_ret, available_transcripts_contains.
  cbn [dict_contains dict_get orb].
  destruct (existsb _ (tracks tl)).
  - destruct (find_transcript [lit "en"] tl) as [t|e]; cbn [of_reply];
      [|reflexivity].
    rewrite bind_ret, bind_emit. destruct (fetch t); reflexivity.
  - destruct (tracks tl) as [|t ts]; cbn [index0]; [reflexivity|].
    rewrite bind_ret, bind_emit. destruct (fetch t); reflexivity.
Qed.

(** The handler once the identifier is known. *)
Lemma main_resolved (w : World) (url vid : pystr) :
  extract_dot_video_id url = Ok vid ->
  main w true url
  = (([StSubheader (lit "Video"); StMarkdown (embed_youtube_video vid) true;
       StSpinner (lit "Getting video transcript...")], Return tt) ;;
     transcript <- get_transcript w vid ;;
     match transcript with
     | Some (_ :: _) =>
       workout_data <- extract_workout_perplexity w transcript ;;
       present w workout_data
     | _ => emit (StWarning (lit "No transcript available for this video."))
     end).
Proof.
  intros Hurl. unfold main.
  destruct (resolved_id_truthy _ _ Hurl) as [-> Hvid].
  rewrite (extract_video_id_resolved _ _ Hurl), bind_ret, Hvid, !bind_emit.
  destruct (get_transcript w vid ;; _) as [t o] eqn:E.
  cbn. reflexivity.
Qed.

Lemma main_unresolved (w : World) (url : pystr) (e : exn) :
  extract_dot_video_id url = Raised e ->
  main w true url
  = if str_truthy url
    then ([StError (lit "Error extracting video ID: " ++ exn_str e)], Return tt)
    else ([StWarning (lit "Please enter a YouTube URL to process.")], Return tt).
Proof.
  intros Hurl. unfold main, extract_video_id. rewrite Hurl.
  destruct (str_truthy url); reflexivity.
Qed.

(** [extract_workout_perplexity] on a non-empty transcript, branch by
    branch. *)
Lemma extract_eq (w : World) (e0 : Segment) (es : list Segment) :
  let base_url := lit "https://api.perplexity.ai" in
  let messages :=
    build_messages
      (prompt_head ++ str_join (lit " ") (map text (e0 :: es)) ++ prompt_tail) in
  let failed e :=
    StError (lit "Failed to connect to Perplexity API: " ++ exn_str e) in
  let missing : M json :=
    ([StError (lit "Perplexity API key is missing. Please add it to your .env file.")],
     Return JNull) in
  let with_key key : M json :=
    match OpenAI w key base_url with
    | Raised e => ([CallOpenAI key base_url (Raised e); failed e], Return JNull)
    | Ok u =>
      match chat_completions_create w (lit "sonar") messages with
      | Raised e =>
        ([CallOpenAI key base_url (Ok u);
          StSpinner (lit "Analyzing workout content...");
          CallCompletionsCreate (lit "sonar") messages (Raised e); failed e],
         Return JNull)
      | Ok response =>
        ([CallOpenAI key base_url (Ok u);
          StSpinner (lit "Analyzing workout content...");
          CallCompletionsCreate (lit "sonar") messages (Ok response)],
         Return tt) ;; read_completion w response
      end
    end in
  extract_workout_perplexity w (Some (e0 :: es))
  = match PERPLEXITY_API_KEY w with
    | None => missing
    | Some [] => missing
    | Some (c :: key) => with_key (c :: key)
    end.
Proof.
  intros base_url messages failed missing with_key.
  destruct (PERPLEXITY_API_KEY w) as [[|c key]|] eqn:Hkey;
    try (apply extract_without_key; auto).
  apply (extract_with_key w e0 es (c :: key) Hkey eq_refl).
Qed.

Lemma read_completion_eq (w : World) (response : ChatCompletion) :
  read_completion w response
  = match choices response with
    | [] => ([], Raise IndexError)
    | choice :: _ =>
      match content (message choice) with
      | None => ([], Raise TypeError_loads_None)
      | Some body =>
        match json_loads_in w body with
        | Ok v => ([], Return v)
        | Raised e =>
          if except_JSONDecodeError e
          then ([StError (lit "Failed to parse Perplexity response as JSON.")],
                Return JNull)
          else ([], Raise e)
        end
      end
    end.
Proof.
  unfold read_completion.
  destruct (choices response) as [|c cs]; cbn [index0]; [reflexivity|].
  rewrite bind_ret. unfold loads.
  destruct (content (message c)) as [body|]; [|reflexivity].
  destruct (json_loads_in w body) as [v|e]; [reflexivity|].
  cbn [of_reply raise try_except].
  destruct (except_JSONDecodeError e); reflexivity.
Qed.

Lemma present_eq (w : World) (v : json) :
  present w v
  = if truthy v then
      match pd_DataFrame (DataFrame_elsewhere w) v with
      | Raised e =>
        ([StSubheader (lit "Extracted Workout Plan"); CallDataFrame v],
         Raise e)
      | Ok df =>
        match st_dataframe (st_dataframe_elsewhere w) df with
        | Raised e =>
          ([StSubheader (lit "Extracted Workout Plan"); CallDataFrame v],
           Raise e)
        | Ok _ =>
          ([StSubheader (lit "Extracted Workout Plan"); CallDataFrame v;
            StDataframe df
              [(lit "exercise", lit "Exercise"); (lit "sets", lit "Sets");
               (lit "reps", lit "Reps")] true true;
            StColumns 2;
            StDownloadButton (lit "Download CSV") (to_csv df)
              (lit "workout_plan.csv") (lit "text/csv");
            StDownloadButton (lit "Download JSON")
              (json_dumps_indent2 (float_repr w) v)
              (lit "workout_plan.json") (lit "application/json")],
           Return tt)
        end
      end
    else
      ([StWarning (lit "Could not extract workout plan from this video.")],
       Return tt).
Proof.
  destruct (truthy v) eqn:Hv.
  - apply (present_truthy_eq w v Hv).
  - apply (present_falsy w v Hv).
Qed.

(** Case analysis of a run of [main w true url]: after [run_cases] every
    goal shows one concrete trace and outcome. *)
Ltac run_split :=
  match goal with
  | |- context [list_transcripts ?w ?v] =>
    destruct (list_transcripts w v) as [?tl|?e] eqn:?
  | |- context [existsb ?f (tracks ?tl)] =>
    destruct (existsb f (tracks tl)) eqn:?
  | |- context [find_transcript ?c ?tl] =>
    destruct (find_transcript c tl) as [?t|?e] eqn:?
  | |- context [match tracks ?tl with _ => _ end] =>
    destruct (tracks tl) as [|?t ?ts] eqn:?
  | |- context [match fetch ?t with _ => _ end] =>
    destruct (fetch t) as [[|?e0 ?es]|?e] eqn:?
  | |- context [extract_workout_perplexity ?w (Some (?a :: ?b))] =>
    rewrite (extract_eq w a b)
  | |- context [PERPLEXITY_API_KEY ?w] =>
    destruct (PERPLEXITY_API_KEY w) as [[|?c ?key]|] eqn:?
  | |- context [OpenAI ?w ?k ?b] =>
    destruct (OpenAI w k b) as [?u|?e] eqn:?
  | |- context [chat_completions_create ?w ?m ?msgs] =>
    destruct (chat_completions_create w m msgs) as [?response|?e] eqn:?
  | |- context [read_completion ?w ?r] => rewrite (read_completion_eq w r)
  | |- context [match choices ?r with _ => _ end] =>
    destruct (choices r) as [|?choice ?others] eqn:?
  | |- context [match content ?m with _ => _ end] =>
    destruct (content m) as [?body|] eqn:?
  | |- context [match json_loads_in ?w ?b with _ => _ end] =>
    destruct (json_loads_in w b) as [?v|?e] eqn:?
  | |- context [if except_JSONDecodeError ?e then _ else _] =>
    destruct (except_JSONDecodeError e) eqn:?
  | |- context [present ?w ?v] => rewrite (present_eq w v)
  | |- context [if truthy ?v then _ else _] => destruct (truthy v) eqn:?
  | |- context [match pd_DataFrame ?f ?v with _ => _ end] =>
    destruct (pd_DataFrame f v) as [?df|?e] eqn:?
  | |- context [match st_dataframe ?f ?d with _ => _ end] =>
    destruct (st_dataframe f d) as [[]|?e] eqn:?
  end.

Ltac run_cases :=
  rewrite ?get_transcript_eq; cbn zeta;
  repeat (run_split; cbn [bind app fst snd trace result ret emit]);
  try match goal with
      | H : truthy JNull = true |- _ => exfalso; vm_compute in H; discriminate H
      end.

Ltac main_cases w button url :=
  let vid := fresh "vid" in
  let e := fresh "e" in
  let Hurl := fresh "Hurl" in
  destruct button;
  [ destruct (extract_dot_video_id url) as [vid|e] eqn:Hurl;
    [ rewrite (main_resolved w url vid Hurl); run_cases
    | rewrite (main_unresolved w url e Hurl); destruct (str_truthy url) ]
  | unfold main ].

Lemma take_id_chars (n : nat) (s i : pystr) :
  take_id n s = Some i -> forallb is_id_char i = true.
Proof.
  revert s i; induction n as [|n IH]; intros s i; cbn [take_id].
  - intros [= <-]. reflexivity.
  - destruct s as [|c r]; [discriminate|].
    destruct (is_id_char c) eqn:Hc; [|discriminate].
    destruct (take_id n r) as [j|] eqn:E; [|discriminate].
    intros [= <-]. cbn [forallb]. rewrite Hc. eauto.
Qed.

Lemma regex_search_video_id_chars (s i : pystr) :
  regex_search_video_id s = Some i -> forallb is_id_char i = true.
Proof.
  induction s as [|c r IH]; cbn [regex_search_video_id]; [discriminate|].
  destruct (c =? 47)%N.
  - destruct (take_id 11 r) eqn:E; [|exact IH].
    intros [= <-]. eapply take_id_chars; eauto.
  - destruct (c =? 118)%N; [|exact IH].
    destruct r as [|x r']; [exact IH|].
    destruct (x =? 61)%N; [|exact IH].
    destruct (take_id 11 r') eqn:E; [|exact IH].
    intros [= <-]. eapply take_id_chars; eauto.
Qed.

Lemma completion_event_inj (m m' : pystr) (msgs msgs' : list (dict pystr))
      (a a' : reply ChatCompletion) :
  CallCompletionsCreate m msgs a = CallCompletionsCreate m' msgs' a' ->
  m = m' /\ msgs = msgs' /\ a = a'.
Proof. intros H. injection H. auto. Qed.

Lemma download_inj (l l' d d' f f' m m' : pystr) :
  StDownloadButton l d f m = StDownloadButton l' d' f' m' ->
  l = l' /\ d = d' /\ f = f' /\ m = m'.
Proof. intros H. injection H. auto. Qed.

Lemma raise_inj {A} (e e' : exn) : @Raise A e = Raise e' -> e = e'.
Proof. intros H. injection H. auto. Qed.

Lemma markdown_inj (b b' : pystr) (f f' : bool) :
  StMarkdown b f = StMarkdown b' f' -> b = b' /\ f = f'.
Proof. intros H. injection H. auto. Qed.

(** ** The properties *)

(** X1.  A URL in which pytube finds no identifier stops the run at once:
    the only thing shown is one message (the warning for an empty input,
    the resolution error otherwise), and no provider is contacted. *)
Theorem unresolvable_url_stops_run :
  forall (w : World) (url : pystr),
    regex_search_video_id url = None ->
    main w true url
    = ([if str_truthy url
        then StError (lit "Error extracting video ID: " ++ exn_str RegexMatchError)
        else StWarning (lit "Please enter a YouTube URL to process.")],
       Return tt).
Proof.
  intros w url Hurl.
  rewrite (main_unresolved w url RegexMatchError).
  - destruct (str_truthy url); reflexivity.
  - unfold extract_dot_video_id. rewrite Hurl. reflexivity.
Qed.

Lemma unresolvable_url_stops_run_witness :
  regex_search_video_id (lit "not a video link") = None
  /\ main demo_world true (lit "not a video link")
     = ([StError (lit "Error extracting video ID: " ++ exn_str RegexMatchError)],
        Return tt).
Proof.
  assert (H : regex_search_video_id (lit "not a video link") = None)
    by (vm_compute; reflexivity).
  split; [exact H|].
  exact (unresolvable_url_stops_run demo_world (lit "not a video link") H).
Defined.

(** X2.  [get_transcript] never lets an exception out and never warns:
    it returns the fetched segments after no message at all, or [None]
    after exactly one error message. *)
Theorem get_transcript_never_raises :
  forall (w : World) (vid : pystr),
    filter is_warning (trace (get_transcript w vid)) = []
    /\ ((exists segs,
            result (get_transcript w vid) = Return (Some segs)
            /\ filter is_error (trace (get_transcript w vid)) = [])
        \/ (exists msg,
               result (get_transcript w vid) = Return None
               /\ filter is_error (trace (get_transcript w vid))
                  = [StError (lit "Error getting transcript: " ++ msg)])).
Proof.
  intros w vid. rewrite get_transcript_eq. cbn zeta.
  destruct (list_transcripts w vid) as [tl|e]; [|cbn; eauto].
  destruct (existsb _ (tracks tl)).
  - destruct (find_transcript [lit "en"] tl) as [t|e]; [|cbn; eauto].
    destruct (fetch t); cbn; eauto.
  - destruct (tracks tl) as [|t ts]; [cbn; eauto|].
    destruct (fetch t); cbn; eauto.
Qed.

(** X3.  The fallback of [get_transcript]: when no track carries the
    display name [en], only the first track in enumeration order counts.
    Its segments are returned when its fetch succeeds; the exception of
    its fetch, or the [IndexError] of an empty list, is reported and
    [None] comes back.  No other track is tried. *)
Theorem fallback_is_first_track :
  forall (w : World) (vid : pystr) (tl : TranscriptList),
    list_transcripts w vid = Ok tl ->
    existsb (fun t => str_eqb (lit "en") (language t)) (tracks tl) = false ->
    get_transcript w vid
    = match tracks tl with
      | t :: _ =>
        match fetch t with
        | Ok segs =>
          ([CallListTranscripts vid (Ok tl); CallFetch t], Return (Some segs))
        | Raised e =>
          ([CallListTranscripts vid (Ok tl); CallFetch t;
            StError (lit "Error getting transcript: " ++ exn_str e)],
           Return None)
        end
      | [] =>
        ([CallListTranscripts vid (Ok tl);
          StError (lit "Error getting transcript: " ++ exn_str IndexError)],
         Return None)
      end.
Proof.
  intros w vid tl Hl Hen.
  rewrite get_transcript_eq. cbn zeta. rewrite Hl, Hen.
  destruct (tracks tl) as [|t ts]; reflexivity.
Qed.

Lemma fallback_is_first_track_witness :
  existsb (fun t => str_eqb (lit "en") (language t)) (tracks two_track_listing)
  = false
  /\ get_transcript two_track_world demo_id
     = ([CallListTranscripts demo_id (Ok two_track_listing);
         CallFetch german_track],
        Return (Some german_segments)).
Proof.
  assert (H : existsb (fun t => str_eqb (lit "en") (language t))
                      (tracks two_track_listing) = false)
    by (vm_compute; reflexivity).
  split; [exact H|].
  exact (fallback_is_first_track two_track_world demo_id two_track_listing
           eq_refl H).
Defined.

(** X4.  The other branch of [get_transcript]: when some track carries
    the display name [en], the track fetched is the first one whose
    language code is [en]; when no track has that code the lookup's
    [NoTranscriptFound] is reported and [None] comes back. *)
Theorem en_name_selects_by_code :
  forall (w : World) (vid : pystr) (tl : TranscriptList),
    list_transcripts w vid = Ok tl ->
    existsb (fun t => str_eqb (lit "en") (language t)) (tracks tl) = true ->
    get_transcript w vid
    = match find (fun t => str_eqb (language_code t) (lit "en")) (tracks tl) with
      | Some t =>
        match fetch t with
        | Ok segs =>
          ([CallListTranscripts vid (Ok tl); CallFetch t], Return (Some segs))
        | Raised e =>
          ([CallListTranscripts vid (Ok tl); CallFetch t;
            StError (lit "Error getting transcript: " ++ exn_str e)],
           Return None)
        end
      | None =>
        ([CallListTranscripts vid (Ok tl);
          StError (lit "Error getting transcript: "
                     ++ exn_str (no_transcript_found tl))],
         Return None)
      end.
Proof.
  intros w vid tl Hl Hen.
  rewrite get_transcript_eq. cbn zeta. rewrite Hl, Hen.
  unfold find_transcript.
  destruct (find _ (tracks tl)) as [t|]; reflexivity.
Qed.

Lemma en_name_selects_by_code_witness :
  existsb (fun t => str_eqb (lit "en") (language t)) (tracks en_named_listing)
  = true
  /\ get_transcript en_named_world demo_id
     = ([CallListTranscripts demo_id (Ok en_named_listing);
         CallFetch en_named_track],
        Return (Some demo_segments)).
Proof.
  assert (H : existsb (fun t => str_eqb (lit "en") (language t))
                      (tracks en_named_listing) = true)
    by (vm_compute; reflexivity).
  split; [exact H|].
  exact (en_name_selects_by_code en_named_world demo_id en_named_listing
           eq_refl H).
Defined.

(** X5.  Whenever [get_transcript] comes back with [None] or with no
    segment at all, the run ends right after it with the warning that no
    transcript is available: the extraction stage is not entered, so no
    client is built and no request is sent. *)
Theorem no_transcript_ends_run :
  forall (w : World) (url vid : pystr),
    extract_dot_video_id url = Ok vid ->
    (result (get_transcript w vid) = Return None
     \/ result (get_transcript w vid) = Return (Some [])) ->
    main w true url
    = ([StSubheader (lit "Video"); StMarkdown (embed_youtube_video vid) true;
        StSpinner (lit "Getting video transcript...")]
         ++ trace (get_transcript w vid)
         ++ [StWarning (lit "No transcript available for this video.")],
       Return tt)
    /\ filter is_client_call (trace (main w true url)) = []
    /\ filter is_completion_call (trace (main w true url)) = [].
Proof.
  intros w url vid Hurl Hg.
  assert (Hq : filter is_client_call (trace (get_transcript w vid)) = []
               /\ filter is_completion_call (trace (get_transcript w vid)) = []).
  { rewrite get_transcript_eq. cbn zeta. run_cases; cbn; auto. }
  rewrite (main_resolved w url vid Hurl).
  destruct (get_transcript w vid) as [t o]. cbn [result snd trace fst] in *.
  destruct Hg as [-> | ->]; cbn; rewrite !filter_app;
    destruct Hq as [-> ->]; auto.
Qed.

Lemma no_transcript_ends_run_witness :
  extract_dot_video_id demo_url = Ok demo_id
  /\ result (get_transcript no_listing_world demo_id) = Return None
  /\ filter is_warning (trace (main no_listing_world true demo_url))
     = [StWarning (lit "No transcript available for this video.")].
Proof.
  assert (Hg : result (get_transcript no_listing_world demo_id) = Return None)
    by (vm_compute; reflexivity).
  split; [reflexivity|]. split; [exact Hg|].
  rewrite (proj1 (no_transcript_ends_run no_listing_world demo_url demo_id
                    eq_refl (or_introl Hg))).
  vm_compute. reflexivity.
Defined.

(** X6.  [extract_workout_perplexity] sends a request only when it has a
    non-empty transcript, a non-empty key and a client that was built;
    the request names the model [sonar], carries the two messages built
    from that transcript, and is logged with the endpoint's own answer. *)
Theorem request_needs_transcript_and_key :
  forall (w : World) (transcript : option (list Segment)) (model : pystr)
         (messages : list (dict pystr)) (answer : reply ChatCompletion),
    In (CallCompletionsCreate model messages answer)
       (trace (extract_workout_perplexity w transcript)) ->
    exists e0 es c key,
      transcript = Some (e0 :: es)
      /\ PERPLEXITY_API_KEY w = Some (c :: key)
      /\ OpenAI w (c :: key) (lit "https://api.perplexity.ai") = Ok tt
      /\ model = lit "sonar"
      /\ messages
         = build_messages
             (prompt_head ++ str_join (lit " ") (map text (e0 :: es))
                          ++ prompt_tail)
      /\ answer = chat_completions_create w (lit "sonar") messages.
Proof.
  intros w transcript model messages answer.
  destruct transcript as [[|e0 es]|];
    try (cbn; intros [H|[]]; discriminate H).
  rewrite extract_eq. cbn zeta.
  destruct (PERPLEXITY_API_KEY w) as [[|c key]|] eqn:Hkey;
    try (cbn; intros [H|[]]; discriminate H).
  destruct (OpenAI w (c :: key) _) as [[]|e] eqn:Hc;
    [|intros H; absurd_in H].
  destruct (chat_completions_create w _ _) as [r|e] eqn:Ha.
  - intros H.
    assert (H' : In (CallCompletionsCreate model messages answer)
                    [CallOpenAI (c :: key) (lit "https://api.perplexity.ai") (Ok tt);
                     StSpinner (lit "Analyzing workout content...");
                     CallCompletionsCreate (lit "sonar")
                       (build_messages
                          (prompt_head ++ str_join (lit " ") (map text (e0 :: es))
                                       ++ prompt_tail)) (Ok r)]).
    { apply in_trace_bind in H as [H|(a & _ & H)]; [exact H|].
      apply read_completion_no_completion in H. discriminate H. }
    destruct H' as [H'|[H'|[H'|[]]]]; try discriminate H'.
    apply completion_event_inj in H' as (<- & <- & <-).
    exists e0, es, c, key. rewrite Ha. auto 10.
  - intros H. destruct H as [H|[H|[H|H]]]; try discriminate H; [|absurd_in H].
    apply completion_event_inj in H as (<- & <- & <-).
    exists e0, es, c, key. rewrite Ha. auto 10.
Qed.

Lemma request_needs_transcript_and_key_witness :
  exists e0 es c key,
    Some demo_segments = Some (e0 :: es)
    /\ PERPLEXITY_API_KEY unreachable_world = Some (c :: key)
    /\ OpenAI unreachable_world (c :: key) (lit "https://api.perplexity.ai") = Ok tt
    /\ lit "sonar" = lit "sonar"
    /\ build_messages
         (prompt_head ++ str_join (lit " ") (map text demo_segments) ++ prompt_tail)
       = build_messages
           (prompt_head ++ str_join (lit " ") (map text (e0 :: es)) ++ prompt_tail)
    /\ Raised connection_error
       = chat_completions_create unreachable_world (lit "sonar")
           (build_messages
              (prompt_head ++ str_join (lit " ") (map text demo_segments)
                           ++ prompt_tail)).
Proof.
  apply (request_needs_transcript_and_key unreachable_world (Some demo_segments)).
  vm_compute. do 2 right. left. reflexivity.
Defined.

(** X7.  Nothing is asked twice: in every run the transcript listing, the
    fetch of a track, the construction of the client and the completion
    request each happen at most once. *)
Theorem each_provider_asked_at_most_once :
  forall (w : World) (button : bool) (url : pystr),
    List.length (filter is_listing_call (trace (main w button url))) <= 1
    /\ List.length (filter is_fetch_call (trace (main w button url))) <= 1
    /\ List.length (filter is_client_call (trace (main w button url))) <= 1
    /\ List.length (filter is_completion_call (trace (main w button url))) <= 1.
Proof.
  intros w button url.
  main_cases w button url; cbn; repeat split; lia.
Qed.

(** X8.  With the key unset or set to the empty string no run ever
    builds a client, sends a request or offers a download. *)
Theorem blank_key_never_contacts_endpoint :
  forall (w : World) (button : bool) (url : pystr),
    (PERPLEXITY_API_KEY w = None \/ PERPLEXITY_API_KEY w = Some []) ->
    filter is_client_call (trace (main w button url)) = []
    /\ filter is_completion_call (trace (main w button url)) = []
    /\ filter is_download (trace (main w button url)) = [].
Proof.
  intros w button url Hkey.
  main_cases w button url; cbn; auto;
    destruct Hkey as [Hkey|Hkey]; congruence.
Qed.

Lemma blank_key_never_contacts_endpoint_witness :
  PERPLEXITY_API_KEY blank_key_world = Some []
  /\ filter is_client_call (trace (main blank_key_world true demo_url)) = [].
Proof.
  split; [reflexivity|].
  exact (proj1 (blank_key_never_contacts_endpoint blank_key_world true demo_url
                  (or_intror eq_refl))).
Defined.

(** X9.  An exception leaves a run only after the completion endpoint
    answered, and only from two places: the reading of the answer after
    the [try] block (an [IndexError] for an answer without choices, a
    [TypeError] for a choice without content, any exception of
    [json.loads] other than [JSONDecodeError]), or the presentation of
    a truthy decoded value (the [DataFrame] constructor of line 157, or
    the table widget of line 160 on the frame it built).  Such a run has
    shown no error and no warning and offers no download. *)
Theorem exceptions_leave_after_the_answer :
  forall (w : World) (button : bool) (url : pystr) (e : exn),
    result (main w button url) = Raise e ->
    filter is_error (trace (main w button url)) = []
    /\ filter is_warning (trace (main w button url)) = []
    /\ filter is_download (trace (main w button url)) = []
    /\ exists messages response,
        In (CallCompletionsCreate (lit "sonar") messages (Ok response))
           (trace (main w button url))
        /\ ((choices response = [] /\ e = IndexError)
            \/ exists choice others,
                choices response = choice :: others
                /\ ((content (message choice) = None
                     /\ e = TypeError_loads_None)
                    \/ exists body,
                        content (message choice) = Some body
                        /\ ((json_loads_in w body = Raised e
                             /\ except_JSONDecodeError e = false)
                            \/ exists v,
                                json_loads_in w body = Ok v
                                /\ truthy v = true
                                /\ In (CallDataFrame v)
                                      (trace (main w button url))
                                /\ (pd_DataFrame (DataFrame_elsewhere w) v
                                    = Raised e
                                    \/ exists df,
                                        pd_DataFrame (DataFrame_elsewhere w) v
                                        = Ok df
                                        /\ st_dataframe
                                             (st_dataframe_elsewhere w) df
                                           = Raised e)))).
Proof.
  intros w button url e.
  main_cases w button url; cbn; intros H; try discriminate H;
    apply raise_inj in H; subst e;
    (split; [reflexivity|]); (split; [reflexivity|]); (split; [reflexivity|]);
    eexists _, _; (split; [do 7 right; left; reflexivity|]);
    first
      [ left; split; [eassumption|reflexivity]
      | right; eexists _, _; split; [eassumption|];
        first
          [ left; split; [eassumption|reflexivity]
          | right; eexists; split; [eassumption|];
            first
              [ left; split; eassumption
              | right; eexists; split; [eassumption|];
                split; [eassumption|];
                split; [do 9 right; left; reflexivity|];
                first [ left; eassumption
                      | right; eexists; split; eassumption ] ] ] ].
Qed.

Lemma exceptions_leave_after_the_answer_witness :
  result (main (world_answering unclosed_brackets) true demo_url)
  = Raise (RecursionError (while_decoding (lit "array")))
  /\ filter is_error
       (trace (main (world_answering unclosed_brackets) true demo_url)) = [].
Proof.
  assert (H : result (main (world_answering unclosed_brackets) true demo_url)
              = Raise (RecursionError (while_decoding (lit "array"))))
    by (vm_compute; reflexivity).
  split; [exact H|].
  exact (proj1 (exceptions_leave_after_the_answer
                  (world_answering unclosed_brackets) true demo_url
                  (RecursionError (while_decoding (lit "array"))) H)).
Defined.

(** X10.  A run shows at most one error message and at most one warning;
    and a run that shows an error offers neither the table nor a
    download, and ends normally. *)
Theorem one_error_one_warning :
  forall (w : World) (button : bool) (url : pystr),
    List.length (filter is_error (trace (main w button url))) <= 1
    /\ List.length (filter is_warning (trace (main w button url))) <= 1
    /\ (filter is_error (trace (main w button url)) = []
        \/ (filter is_download (trace (main w button url)) = []
            /\ filter is_render (trace (main w button url)) = []
            /\ result (main w button url) = Return tt)).
Proof.
  intros w button url.
  main_cases w button url; cbn; repeat split; auto; lia.
Qed.

(** X11.  A download is offered only for a truthy value that
    [json.loads] returned for the endpoint's answer and for which the
    [DataFrame] constructor returned a frame that the table widget
    showed: the CSV button carries [to_csv] of that frame, the JSON
    button [json.dumps] of that value, each under its fixed file name
    and MIME type. *)
Theorem downloads_come_from_the_answer :
  forall (w : World) (button : bool) (url label data file_name mime : pystr),
    In (StDownloadButton label data file_name mime)
       (trace (main w button url)) ->
    exists messages response choice others body v df,
      In (CallCompletionsCreate (lit "sonar") messages (Ok response))
         (trace (main w button url))
      /\ choices response = choice :: others
      /\ content (message choice) = Some body
      /\ json_loads_in w body = Ok v
      /\ truthy v = true
      /\ pd_DataFrame (DataFrame_elsewhere w) v = Ok df
      /\ st_dataframe (st_dataframe_elsewhere w) df = Ok tt
      /\ ((label = lit "Download CSV" /\ data = to_csv df
           /\ file_name = lit "workout_plan.csv" /\ mime = lit "text/csv")
          \/ (label = lit "Download JSON"
              /\ data = json_dumps_indent2 (float_repr w) v
              /\ file_name = lit "workout_plan.json"
              /\ mime = lit "application/json")).
Proof.
  intros w button url label data file_name mime.
  main_cases w button url; cbn; intros H;
    repeat (destruct H as [H|H]; [try discriminate H|]);
    try (match type of H with False => destruct H end);
    apply download_inj in H as (<- & <- & <- & <-);
    do 7 eexists;
    (split; [do 7 right; left; reflexivity|]);
    repeat (split; [eassumption|]); auto 10.
Qed.

Lemma downloads_come_from_the_answer_witness :
  exists messages response choice others body v df,
    In (CallCompletionsCreate (lit "sonar") messages (Ok response))
       (trace (main demo_world true demo_url))
    /\ choices response = choice :: others
    /\ content (message choice) = Some body
    /\ json_loads_in demo_world body = Ok v
    /\ truthy v = true
    /\ pd_DataFrame (DataFrame_elsewhere demo_world) v = Ok df
    /\ st_dataframe (st_dataframe_elsewhere demo_world) df = Ok tt
    /\ ((lit "Download CSV" = lit "Download CSV"
         /\ lit "exercise,sets,reps\nPush-ups,3,15\nSquats,4,12\n" = to_csv df
         /\ lit "workout_plan.csv" = lit "workout_plan.csv"
         /\ lit "text/csv" = lit "text/csv")
        \/ (lit "Download CSV" = lit "Download JSON"
            /\ lit "exercise,sets,reps\nPush-ups,3,15\nSquats,4,12\n"
               = json_dumps_indent2 (float_repr demo_world) v
            /\ lit "workout_plan.csv" = lit "workout_plan.json"
            /\ lit "text/csv" = lit "application/json")).
Proof.
  apply (downloads_come_from_the_answer demo_world true demo_url).
  vm_compute. do 12 right. left. reflexivity.
Defined.

(** X12.  The only markup a run renders with [unsafe_allow_html] is the
    player of the identifier pytube found in the URL, and that
    identifier is eleven characters among digits, letters, underscore
    and hyphen: nothing else of the user's text reaches the page as
    HTML. *)
Theorem markup_holds_only_a_safe_id :
  forall (w : World) (button : bool) (url body : pystr) (flag : bool),
    In (StMarkdown body flag) (trace (main w button url)) ->
    exists vid,
      extract_dot_video_id url = Ok vid
      /\ body = embed_youtube_video vid
      /\ flag = true
      /\ List.length vid = 11
      /\ forallb is_id_char vid = true.
Proof.
  intros w button url body flag.
  assert (G : forall vid, extract_dot_video_id url = Ok vid ->
                          List.length vid = 11 /\ forallb is_id_char vid = true).
  { unfold extract_dot_video_id. intros vid.
    destruct (regex_search_video_id url) as [i|] eqn:E; [|discriminate].
    intros [= <-]. split.
    - apply (regex_search_video_id_length _ _ E).
    - apply (regex_search_video_id_chars _ _ E). }
  main_cases w button url; cbn; intros H;
    repeat (destruct H as [H|H]; [try discriminate H|]);
    try (match type of H with False => destruct H end);
    apply markdown_inj in H as (<- & <-);
    exists vid; destruct (G vid eq_refl); auto.
Qed.

Lemma markup_holds_only_a_safe_id_witness :
  exists vid,
    extract_dot_video_id demo_url = Ok vid
    /\ embed_youtube_video demo_id = embed_youtube_video vid
    /\ true = true
    /\ List.length vid = 11
    /\ forallb is_id_char vid = true.
Proof.
  apply (markup_holds_only_a_safe_id no_listing_world true demo_url).
  vm_compute. right. left. reflexivity.
Defined.

(** X13.  Every completion request of a run is built from the transcript
    that this run fetched: the track was fetched with success, it has at
    least one segment, and the request carries the model [sonar] and the
    two messages made from those segments. *)
Theorem request_built_from_fetched_transcript :
  forall (w : World) (button : bool) (url model : pystr)
         (messages : list (dict pystr)) (answer : reply ChatCompletion),
    In (CallCompletionsCreate model messages answer)
       (trace (main w button url)) ->
    exists track e0 es,
      In (CallFetch track) (trace (main w button url))
      /\ fetch track = Ok (e0 :: es)
      /\ model = lit "sonar"
      /\ messages
         = build_messages
             (prompt_head ++ str_join (lit " ") (map text (e0 :: es))
                          ++ prompt_tail).
Proof.
  intros w button url model messages answer.
  main_cases w button url; cbn; intros H;
    repeat (destruct H as [H|H]; [try discriminate H|]);
    try (match type of H with False => destruct H end);
    apply completion_event_inj in H as (<- & <- & <-);
    do 3 eexists;
    (split; [do 4 right; left; reflexivity|]);
    (split; [eassumption|]); auto.
Qed.

Lemma request_built_from_fetched_transcript_witness :
  exists track e0 es,
    In (CallFetch track) (trace (main unreachable_world true demo_url))
    /\ fetch track = Ok (e0 :: es)
    /\ lit "sonar" = lit "sonar"
    /\ build_messages
         (prompt_head ++ str_join (lit " ") (map text demo_segments) ++ prompt_tail)
       = build_messages
           (prompt_head ++ str_join (lit " ") (map text (e0 :: es))
                        ++ prompt_tail).
Proof.
  apply (request_built_from_fetched_transcript unreachable_world true demo_url
           (lit "sonar")
           (build_messages
              (prompt_head ++ str_join (lit " ") (map text demo_segments)
                           ++ prompt_tail))
           (Raised connection_error)).
  vm_compute. do 7 right. left. reflexivity.
Defined.

(** X14.  An answer whose text, after leading white space, is empty or
    begins with a character that cannot begin a JSON value (a markdown
    fence, a sentence, a single quote) is a parse failure: reading it
    reports the one parse error and yields [None]. *)
Theorem text_that_cannot_start_json_fails :
  forall (w : World) (response : ChatCompletion) (choice : Choice)
         (others : list Choice) (body : pystr),
    choices response = choice :: others ->
    content (message choice) = Some body ->
    match skip_ws body with
    | c :: _ => starts_json_value c
    | [] => false
    end = false ->
    read_completion w response
    = ([StError (lit "Failed to parse Perplexity response as JSON.")],
       Return JNull).
Proof.
  intros w response choice others body Hc Hb Hs.
  rewrite read_completion_eq, Hc, Hb. unfold json_loads_in.
  rewrite (json_loads_cannot_start _ _ body Hs). reflexivity.
Qed.

Lemma text_that_cannot_start_json_fails_witness :
  read_completion demo_world (completion_with fenced_body)
  = ([StError (lit "Failed to parse Perplexity response as JSON.")],
     Return JNull).
Proof.
  apply (text_that_cannot_start_json_fails demo_world
           (completion_with fenced_body)
           (mkChoice (mkMessage (Some fenced_body))) [] fenced_body);
    vm_compute; reflexivity.
Defined.

(** X15.  A failure that the handler reports never cuts the page short:
    whenever a run shows an error or a warning, the script goes on to
    render the usage notes and the sidebar after the handler's output. *)
Theorem reported_failure_keeps_page_whole :
  forall (w : World) (url : pystr) (button : bool),
    (filter is_error (trace (main w button url)) <> []
     \/ filter is_warning (trace (main w button url)) <> []) ->
    script w url button
    = (page_top ++ map FromHandler (trace (main w button url)) ++ page_bottom,
       Return tt).
Proof.
  intros w url button H.
  assert (G : result (main w button url) = Return tt).
  { revert H. main_cases w button url; cbn; intros [H|H];
      try reflexivity; exfalso; apply H; reflexivity. }
  unfold script. destruct (main w button url) as [t o].
  cbn [result snd trace fst] in *. subst o. reflexivity.
Qed.

Lemma reported_failure_keeps_page_whole_witness :
  filter is_error (trace (main unreachable_world true demo_url)) <> []
  /\ filter is_sidebar (fst (script unreachable_world demo_url true))
     = filter is_sidebar page_bottom.
Proof.
  assert (H : filter is_error (trace (main unreachable_world true demo_url)) <> [])
    by (vm_compute; discriminate).
  split; [exact H|].
  rewrite (reported_failure_keeps_page_whole unreachable_world demo_url true
             (or_introl H)).
  vm_compute. reflexivity.
Defined.

(** X17.  The stages run strictly in order.  A run that sends a
    completion request has, before it and in this order, rendered the
    player of the resolved identifier, listed the transcripts of that
    identifier, fetched one track, and built the client with the
    configured key and the fixed base URL; nothing else precedes the
    request. *)
Theorem request_follows_every_earlier_stage :
  forall (w : World) (button : bool) (url model : pystr)
         (messages : list (dict pystr)) (answer : reply ChatCompletion),
    In (CallCompletionsCreate model messages answer)
       (trace (main w button url)) ->
    exists vid track key rest,
      extract_dot_video_id url = Ok vid
      /\ PERPLEXITY_API_KEY w = Some key
      /\ trace (main w button url)
         = [StSubheader (lit "Video");
            StMarkdown (embed_youtube_video vid) true;
            StSpinner (lit "Getting video transcript...");
            CallListTranscripts vid (list_transcripts w vid);
            CallFetch track;
            CallOpenAI key (lit "https://api.perplexity.ai") (Ok tt);
            StSpinner (lit "Analyzing workout content...");
            CallCompletionsCreate model messages answer] ++ rest.
Proof.
  intros w button url model messages answer.
  main_cases w button url; cbn; intros H;
    repeat (destruct H as [H|H]; [try discriminate H|]);
    try (match type of H with False => destruct H end);
    apply completion_event_inj in H as (<- & <- & <-);
    repeat match goal with u : unit |- _ => destruct u end;
    do 4 eexists;
    (split; [reflexivity|]); (split; [reflexivity|]);
    match goal with Hl : list_transcripts _ _ = _ |- _ => rewrite Hl end;
    cbn [app]; reflexivity.
Qed.

Lemma request_follows_every_earlier_stage_witness :
  exists vid track key rest,
    extract_dot_video_id demo_url = Ok vid
    /\ PERPLEXITY_API_KEY demo_world = Some key
    /\ trace (main demo_world true demo_url)
       = [StSubheader (lit "Video");
          StMarkdown (embed_youtube_video vid) true;
          StSpinner (lit "Getting video transcript...");
          CallListTranscripts vid (list_transcripts demo_world vid);
          CallFetch track;
          CallOpenAI key (lit "https://api.perplexity.ai") (Ok tt);
          StSpinner (lit "Analyzing workout content...");
          CallCompletionsCreate (lit "sonar")
            (build_messages
               (prompt_head ++ str_join (lit " ") (map text demo_segments)
                            ++ prompt_tail))
            (Ok (completion_with demo_body))] ++ rest.
Proof.
  apply (request_follows_every_earlier_stage demo_world true demo_url).
  vm_compute. do 7 right. left. reflexivity.
Defined.
